(** * The roster cost evaluator of [workers.py]

    A shallow embedding of the class [SchedulingProblem]: its configuration,
    the decomposition of a flat schedule into one sub-sequence per worker,
    the five violation counters and the weighted cost.

    Schedule entries, violation counts and the penalty are Python integers
    ([Z]); lengths, indices and strides are natural numbers.  Python
    exceptions are the [Raise] results of an error monad. *)

From Stdlib Require Import String ZArith Bool Arith Lia List.
Import ListNotations.

Set Implicit Arguments.

(** ** Python values, exceptions and the error monad *)

Inductive pyval : Type :=
| PyStr (s : string)
| PyInt (n : Z).

Inductive exn : Type :=
| ValueError (args : list pyval)
| ZeroDivisionError
| IndexError
| KeyError (key : string).

Inductive result (A : Type) : Type :=
| Ok (a : A)
| Raise (e : exn).

Arguments Ok {A} a.
Arguments Raise {A} e.

Definition bind {A B : Type} (m : result A) (k : A -> result B) : result B :=
  match m with
  | Ok a => k a
  | Raise e => Raise e
  end.

Notation "x <- m ;; k" := (bind m (fun x => k))
  (at level 61, m at next level, right associativity).
Notation "' pat <- m ;; k" := (bind m (fun x => match x with pat => k end))
  (at level 61, pat pattern, m at next level, right associativity).

(** A [for] loop whose body may raise: the state is threaded from left to
    right and the first exception ends the loop. *)
Fixpoint foldM {S A : Type} (body : S -> A -> result S) (l : list A) (s : S)
  : result S :=
  match l with
  | [] => Ok s
  | x :: l' => s' <- body s x ;; foldM body l' s'
  end.

(** ** The Python built-ins the class uses *)

Module Py.

(** [l[start:stop]] for non-negative bounds. *)
Definition slice {A : Type} (l : list A) (start stop : nat) : list A :=
  firstn (stop - start) (skipn start l).

(** [l[start:]] for a non-negative bound. *)
Definition slice_from {A : Type} (l : list A) (start : nat) : list A :=
  skipn start l.

(** The indices [start, start+step, ...] below [stop], for a positive
    [step]. *)
Definition indices (start stop step : nat) : list nat :=
  map (fun k => start + k * step)%nat
      (seq 0 ((stop - start + (step - 1)) / step)).

(** [range(start, stop, step)]; a zero step is a [ValueError]. *)
Definition range (start stop step : nat) : result (list nat) :=
  match step with
  | O => Raise (ValueError [PyStr "range() arg 3 must not be zero"])
  | _ => Ok (indices start stop step)
  end.

(** [range(n)]. *)
Definition range_len (n : nat) : list nat := seq 0 n.

(** [l[i]] for a non-negative index. *)
Definition getitem {A : Type} (l : list A) (i : nat) : result A :=
  match nth_error l i with
  | Some x => Ok x
  | None => Raise IndexError
  end.

(** [l[start:stop:step]] for non-negative bounds and a positive step. *)
Definition slice_step {A : Type} (l : list A) (start stop step : nat)
  : list A :=
  flat_map (fun i => match nth_error l i with
                     | Some x => [x]
                     | None => []
                     end)
           (indices start (Nat.min stop (length l)) step).

(** [a // b] and [a % b] on non-negative integers. *)
Definition floordiv (a b : nat) : result nat :=
  match b with
  | O => Raise ZeroDivisionError
  | _ => Ok (a / b)%nat
  end.

Definition mod_ (a b : nat) : result nat :=
  match b with
  | O => Raise ZeroDivisionError
  | _ => Ok (a mod b)%nat
  end.

(** [sum(l)]: the running total starts at 0 and goes left to right. *)
Definition sum (l : list Z) : Z := fold_left Z.add l 0%Z.

(** [zip(a, b)] stops at the shorter argument. *)
Definition zip {A B : Type} (a : list A) (b : list B) : list (A * B) :=
  combine a b.

(** [enumerate(l)]. *)
Definition enumerate {A : Type} (l : list A) : list (nat * A) :=
  combine (seq 0 (length l)) l.

(** [l * n]: the list repeated [n] times. *)
Fixpoint list_mul {A : Type} (l : list A) (n : nat) : list A :=
  match n with
  | O => []
  | S n' => l ++ list_mul l n'
  end.

(** One round of [zip] over the unpacked [ls]: the next element of every argument, or
    [None] as soon as one of them is exhausted. *)
Fixpoint heads {A : Type} (ls : list (list A)) : option (list A) :=
  match ls with
  | [] => Some []
  | [] :: _ => None
  | (x :: _) :: ls' =>
      match heads ls' with
      | Some hs => Some (x :: hs)
      | None => None
      end
  end.

Fixpoint zip_rows {A : Type} (fuel : nat) (ls : list (list A))
  : list (list A) :=
  match fuel with
  | O => []
  | S fuel' =>
      match heads ls with
      | Some hs => hs :: zip_rows fuel' (map (@tl A) ls)
      | None => []
      end
  end.

(** [zip] over the unpacked [ls]: no argument gives nothing; otherwise one tuple per index
    that every argument has.  The first argument's length bounds the
    number of rounds. *)
Definition zip_star {A : Type} (ls : list (list A)) : list (list A) :=
  match ls with
  | [] => []
  | l :: _ => zip_rows (length l) ls
  end.

(** A [dict] with string keys keeps its insertion order: assigning to an
    existing key replaces the value in place, a new key goes last. *)
Definition dict (V : Type) : Type := list (string * V).

Fixpoint setitem {V : Type} (d : dict V) (k : string) (v : V) : dict V :=
  match d with
  | [] => [(k, v)]
  | (k', v') :: d' =>
      if String.eqb k' k then (k', v) :: d'
      else (k', v') :: setitem d' k v
  end.

Fixpoint lookup {V : Type} (d : dict V) (k : string) : result V :=
  match d with
  | [] => Raise (KeyError k)
  | (k', v') :: d' => if String.eqb k' k then Ok v' else lookup d' k
  end.

Definition values {V : Type} (d : dict V) : list V := map snd d.

Definition keys {V : Type} (d : dict V) : list string := map fst d.

End Py.

(** ** The problem instance *)

Record SchedulingProblem : Type := {
  hardConstraintPenalty : Z;
  workers : list string;
  shiftPreference : list (list Z);
  shiftMin : list Z;
  shiftMax : list Z;
  maxShiftsPerWeek : Z;
  weeks : nat;
  shiftPerDay : nat;
  shiftsPerWeek : nat
}.

(** [SchedulingProblem(hardConstraintPenalty)]. *)
Definition __init__ (penalty : Z) : SchedulingProblem :=
  let shiftMin0 := [2; 2; 1]%Z in
  let shiftPerDay0 := length shiftMin0 in
  {| hardConstraintPenalty := penalty;
     workers := ["A"; "B"; "C"; "D"; "E"; "F"; "G"; "H"; "I"; "J"]%string;
     shiftPreference :=
       [[1; 0; 0]; [1; 1; 0]; [0; 0; 1]; [0; 1; 0]; [0; 0; 1];
        [1; 1; 1]; [0; 1; 1]; [1; 1; 1]; [1; 0; 0]; [0; 1; 0]]%Z;
     shiftMin := shiftMin0;
     shiftMax := [3; 4; 2]%Z;
     maxShiftsPerWeek := 5%Z;
     weeks := 1;
     shiftPerDay := shiftPerDay0;
     shiftsPerWeek := 7 * shiftPerDay0 |}.

(** A schedule is a flat list of integers; the per-worker view is a
    dictionary from the worker's name to the worker's shifts. *)
Definition schedule : Type := list Z.
Definition workersShifts : Type := Py.dict (list Z).

(** The methods of the class.  [countConsecutiveShiftViolations] and
    [countCompetenceViolations] read no attribute of [self]: outside the
    section they take the dictionary only. *)
Section Methods.

Variable self : SchedulingProblem.

Definition __len__ : nat :=
  (length (workers self) * shiftsPerWeek self * weeks self)%nat.

Definition getWorkerShifts (sched : schedule) : result workersShifts :=
  shiftsPerWorker <- Py.floordiv __len__ (length (workers self)) ;;
  Ok (fst (fold_left
             (fun '(workersShiftsDict, shiftIndex) worker =>
                (Py.setitem workersShiftsDict worker
                   (Py.slice sched shiftIndex
                             (shiftIndex + shiftsPerWorker)),
                 (shiftIndex + shiftsPerWorker)%nat))
             (workers self) ([], 0%nat))).

Definition countConsecutiveShiftViolations (workersShiftsDict : workersShifts)
  : Z :=
  fold_left
    (fun violations workerShifts =>
       fold_left
         (fun violations '(shift1, shift2) =>
            if (shift1 =? 1)%Z && (shift2 =? 1)%Z
            then (violations + 1)%Z else violations)
         (Py.zip workerShifts (Py.slice_from workerShifts 1))
         violations)
    (Py.values workersShiftsDict) 0%Z.

Definition countShiftsPerWeekViolations (workersShiftsDict : workersShifts)
  : result (list Z * Z) :=
  '(violations, weeklyShiftsList) <-
    foldM
      (fun st workerShifts =>
         starts <- Py.range 0 (weeks self * shiftsPerWeek self)
                            (shiftsPerWeek self) ;;
         Ok (fold_left
               (fun '(violations, weeklyShiftsList) i =>
                  let weeklyShifts :=
                    Py.sum (Py.slice workerShifts i
                                     (i + shiftsPerWeek self)) in
                  let weeklyShiftsList :=
                    weeklyShiftsList ++ [weeklyShifts] in
                  if (weeklyShifts >? maxShiftsPerWeek self)%Z
                  then ((violations
                         + (weeklyShifts - maxShiftsPerWeek self))%Z,
                        weeklyShiftsList)
                  else (violations, weeklyShiftsList))
               starts st))
      (Py.values workersShiftsDict) (0%Z, []) ;;
  Ok (weeklyShiftsList, violations).

Definition countWorkersPerShiftViolations (workersShiftsDict : workersShifts)
  : result (list Z * Z) :=
  let totalPerShiftList :=
    map Py.sum (Py.zip_star (Py.values workersShiftsDict)) in
  violations <-
    foldM
      (fun violations '(shiftIndex, numOfWorkers) =>
         dailyShiftIndex <- Py.mod_ shiftIndex (shiftPerDay self) ;;
         upper <- Py.getitem (shiftMax self) dailyShiftIndex ;;
         if (numOfWorkers >? upper)%Z
         then Ok (violations + (numOfWorkers - upper))%Z
         else
           lower <- Py.getitem (shiftMin self) dailyShiftIndex ;;
           if (numOfWorkers <? lower)%Z
           then Ok (violations + (lower - numOfWorkers))%Z
           else Ok violations)
      (Py.enumerate totalPerShiftList) 0%Z ;;
  Ok (totalPerShiftList, violations).

Definition countShiftPreferenceViolations (workersShiftsDict : workersShifts)
  : result Z :=
  foldM
    (fun violations '(workerIndex, shiftPreference) =>
       days <- Py.floordiv (shiftsPerWeek self) (shiftPerDay self) ;;
       let preference := Py.list_mul shiftPreference days in
       worker <- Py.getitem (workers self) workerIndex ;;
       shifts <- Py.lookup workersShiftsDict worker ;;
       Ok (fold_left
             (fun violations '(pref, shift) =>
                if (pref =? 0)%Z && (shift =? 1)%Z
                then (violations + 1)%Z else violations)
             (Py.zip preference shifts) violations))
    (Py.enumerate (shiftPreference self)) 0%Z.

Definition countCompetenceViolations (workersShiftsDict : workersShifts)
  : result Z :=
  foldM
    (fun violations '(workerIndex, workerShifts) =>
       let nightShifts := Py.slice_step workerShifts 2 30 3 in
       if (4 <? workerIndex)%nat
       then
         foldM
           (fun violations i =>
              shift <- Py.getitem nightShifts i ;;
              if (shift =? 1)%Z
              then Ok (violations + 1)%Z else Ok violations)
           (Py.range_len (length nightShifts)) violations
       else Ok violations)
    (Py.enumerate (Py.values workersShiftsDict)) 0%Z.

Definition getCost (sched : schedule) : result Z :=
  if negb (length sched =? __len__)%nat
  then Raise (ValueError [PyStr "size of schedule list should be equal to ";
                          PyInt (Z.of_nat __len__)])
  else
    workersShiftsDict <- getWorkerShifts sched ;;
    let consecutiveShiftViolations :=
      countConsecutiveShiftViolations workersShiftsDict in
    shiftsPerWeekViolations <-
      (r <- countShiftsPerWeekViolations workersShiftsDict ;; Ok (snd r)) ;;
    workersPerShiftViolations <-
      (r <- countWorkersPerShiftViolations workersShiftsDict ;; Ok (snd r)) ;;
    shiftPreferenceViolations <-
      countShiftPreferenceViolations workersShiftsDict ;;
    competenceViolations <- countCompetenceViolations workersShiftsDict ;;
    let hardContstraintViolations :=
      (consecutiveShiftViolations + workersPerShiftViolations
       + shiftsPerWeekViolations + competenceViolations)%Z in
    let softContstraintViolations := shiftPreferenceViolations in
    Ok (hardConstraintPenalty self * hardContstraintViolations
        + softContstraintViolations)%Z.

End Methods.

(** ** Printing

    [print] is an effect: what a method has printed stays printed when a
    later statement raises.  A computation that prints is the pair of the
    lines printed, in order, and of its result; a line is the list of the
    arguments of one call of [print]. *)

Inductive printed : Type :=
| PText (s : string)
| PNum (n : Z)
| PSeq (l : list Z).

Definition line : Type := list printed.

Definition io (A : Type) : Type := (list line * result A)%type.

Definition io_bind {A B : Type} (m : io A) (k : A -> io B) : io B :=
  match m with
  | (out, Ok a) => let (out', r) := k a in (out ++ out', r)
  | (out, Raise e) => (out, Raise e)
  end.

Notation "x <~ m ;; k" := (io_bind m (fun x => k))
  (at level 61, m at next level, right associativity).
Notation "' pat <~ m ;; k" := (io_bind m (fun x => match x with pat => k end))
  (at level 61, pat pattern, m at next level, right associativity).

Definition print (args : line) : io unit := ([args], Ok tt).

(** A method call that prints nothing. *)
Definition call {A : Type} (r : result A) : io A := ([], r).

(** A [for] loop whose body prints. *)
Fixpoint for_each {A : Type} (body : A -> io unit) (l : list A) : io unit :=
  match l with
  | [] => ([], Ok tt)
  | x :: l' => _ <~ body x ;; for_each body l'
  end.

Section Reporting.

Variable self : SchedulingProblem.

Definition printScheduleInfo (sched : schedule) : io unit :=
  workersShiftsDict <~ call (getWorkerShifts self sched) ;;
  _ <~ print [PText "Schedule for each worker:"] ;;
  _ <~ for_each
         (fun worker =>
            shifts <~ call (Py.lookup workersShiftsDict worker) ;;
            print [PText worker; PText ":"; PSeq shifts])
         (Py.keys workersShiftsDict) ;;
  _ <~ print [PText "consecutive shift violations = ";
              PNum (countConsecutiveShiftViolations workersShiftsDict)] ;;
  _ <~ print [] ;;
  '(weeklyShiftsList, violations) <~
    call (countShiftsPerWeekViolations self workersShiftsDict) ;;
  _ <~ print [PText "weekly Shifts = "; PSeq weeklyShiftsList] ;;
  _ <~ print [PText "Shifts Per Week Violations = "; PNum violations] ;;
  _ <~ print [] ;;
  '(totalPerShiftList, violations) <~
    call (countWorkersPerShiftViolations self workersShiftsDict) ;;
  _ <~ print [PText "Workers Per Shift = "; PSeq totalPerShiftList] ;;
  _ <~ print [PText "Workers Per Shift Violations = "; PNum violations] ;;
  _ <~ print [] ;;
  shiftPreferenceViolations <~
    call (countShiftPreferenceViolations self workersShiftsDict) ;;
  _ <~ print [PText "Shift Preference Violations = ";
              PNum shiftPreferenceViolations] ;;
  _ <~ print [] ;;
  competenceViolations <~
    call (countCompetenceViolations workersShiftsDict) ;;
  _ <~ print [PText "Competence Violations = "; PNum competenceViolations] ;;
  print [].

End Reporting.

(** [main()].  The draw [np.random.randint(2, size=len(workers))] is the
    argument [randomSolution]: a sequence of [__len__] entries, each 0
    or 1. *)
Definition main (randomSolution : schedule) : io unit :=
  let workers := __init__ 10 in
  _ <~ print [PText "Random Solution = "] ;;
  _ <~ print [PSeq randomSolution] ;;
  _ <~ print [] ;;
  _ <~ printScheduleInfo workers randomSolution ;;
  cost <~ call (getCost workers randomSolution) ;;
  print [PText "Total Cost = "; PNum cost].

(** The line [printScheduleInfo] prints for a worker, and the thirteen
    lines it prints after the workers. *)
Definition worker_line (kv : string * list Z) : line :=
  [PText (fst kv); PText ":"; PSeq (snd kv)].

Definition report_lines (consecutive : Z) (weekly : list Z) (perWeek : Z)
  (slots : list Z) (perShift pref comp : Z) : list line :=
  [[PText "consecutive shift violations = "; PNum consecutive];
   [];
   [PText "weekly Shifts = "; PSeq weekly];
   [PText "Shifts Per Week Violations = "; PNum perWeek];
   [];
   [PText "Workers Per Shift = "; PSeq slots];
   [PText "Workers Per Shift Violations = "; PNum perShift];
   [];
   [PText "Shift Preference Violations = "; PNum pref];
   [];
   [PText "Competence Violations = "; PNum comp];
   []].

(** A schedule is binary when every entry is 0 or 1. *)
Definition binary (sched : schedule) : Prop :=
  Forall (fun x => x = 0%Z \/ x = 1%Z) sched.

(** Every entry other than 1 replaced by 0. *)
Definition scheduled_only (ws : list Z) : list Z :=
  map (fun x => if (x =? 1)%Z then 1%Z else 0%Z) ws.

Definition scheduled_only_dict (d : workersShifts) : workersShifts :=
  map (fun kv => (fst kv, scheduled_only (snd kv))) d.

(** The instance of [__init__] with another list of workers, as after
    [problem.workers = names]. *)
Definition with_workers (self : SchedulingProblem) (names : list string)
  : SchedulingProblem :=
  {| hardConstraintPenalty := hardConstraintPenalty self;
     workers := names;
     shiftPreference := shiftPreference self;
     shiftMin := shiftMin self;
     shiftMax := shiftMax self;
     maxShiftsPerWeek := maxShiftsPerWeek self;
     weeks := weeks self;
     shiftPerDay := shiftPerDay self;
     shiftsPerWeek := shiftsPerWeek self |}.


(** ** The quantities the specification speaks of

    Index-based descriptions of what each counter is said to compute; the
    theorems below compare them with the loops of the class. *)

Definition Zsum (l : list Z) : Z := fold_right Z.add 0%Z l.

(** The configurations on which no counter can raise: at least one worker,
    distinct worker names, a positive number of shifts per day and per week,
    staffing bounds for every shift of the day, and no more preference rows
    than workers. *)
Record well_configured (self : SchedulingProblem) : Prop := {
  wc_workers : workers self <> [];
  wc_unique : NoDup (workers self);
  wc_shiftPerDay : shiftPerDay self <> 0;
  wc_shiftsPerWeek : shiftsPerWeek self <> 0;
  wc_shiftMax : shiftPerDay self <= length (shiftMax self);
  wc_shiftMin : shiftPerDay self <= length (shiftMin self);
  wc_preferences : length (shiftPreference self) <= length (workers self)
}.

(** The schedules of the scenarios: nobody works; one worker works the
    evening of every day of a week. *)
Definition all_zero : schedule := repeat 0%Z 210.

Definition evenings : list Z := Py.list_mul [0; 1; 0]%Z 7.

(** The [i]-th contiguous chunk of [size] entries. *)
Definition chunk (sched : schedule) (size i : nat) : list Z :=
  Py.slice sched (i * size) (i * size + size).

(** The partition of a schedule into one chunk per worker, in the order of
    the worker list. *)
Definition partition (self : SchedulingProblem) (sched : schedule)
  : workersShifts :=
  combine (workers self)
          (map (chunk sched (__len__ self / length (workers self)))
               (seq 0 (length (workers self)))).

(** Adjacent positions [k], [k+1] of a worker's sequence both set to 1. *)
Definition both_scheduled (ws : list Z) (k : nat) : bool :=
  (nth k ws 0 =? 1)%Z && (nth (S k) ws 0 =? 1)%Z.

Definition adjacent_pairs (ws : list Z) : nat :=
  length (filter (both_scheduled ws) (seq 0 (length ws - 1))).

Definition consecutive_total (d : workersShifts) : Z :=
  Zsum (map (fun ws => Z.of_nat (adjacent_pairs ws)) (Py.values d)).

(** The total of one week of a worker: the window of [shiftsPerWeek]
    positions that starts at [w * shiftsPerWeek]. *)
Definition week_total (self : SchedulingProblem) (ws : list Z) (w : nat) : Z :=
  Zsum (map (fun k => nth (w * shiftsPerWeek self + k) ws 0%Z)
            (seq 0 (shiftsPerWeek self))).

Definition weekly_totals (self : SchedulingProblem) (d : workersShifts)
  : list Z :=
  flat_map (fun ws => map (week_total self ws) (seq 0 (weeks self)))
           (Py.values d).

Definition excess (self : SchedulingProblem) (total : Z) : Z :=
  if (total >? maxShiftsPerWeek self)%Z
  then (total - maxShiftsPerWeek self)%Z else 0%Z.

Definition weekly_excess (self : SchedulingProblem) (d : workersShifts) : Z :=
  Zsum (map (excess self) (weekly_totals self d)).

(** The number of workers assigned to the slot [index], and the penalty of
    a slot of that index with that many workers. *)
Definition slot_total (d : workersShifts) (index : nat) : Z :=
  Zsum (map (fun ws => nth index ws 0%Z) (Py.values d)).

Definition staffing_penalty (self : SchedulingProblem) (index : nat)
  (total : Z) : Z :=
  let type := index mod shiftPerDay self in
  let upper := nth type (shiftMax self) 0%Z in
  let lower := nth type (shiftMin self) 0%Z in
  if (total >? upper)%Z then (total - upper)%Z
  else if (total <? lower)%Z then (lower - total)%Z
  else 0%Z.

Definition staffing_total (self : SchedulingProblem) (d : workersShifts)
  (slots : nat) : Z :=
  Zsum (map (fun j => staffing_penalty self j (slot_total d j)) (seq 0 slots)).

(** The preference of a worker tiled over the days: slot [k] has the
    preference of its shift of the day. *)
Definition tiled_preference (pref : list Z) (k : nat) : Z :=
  nth (k mod length pref) pref 0%Z.

Definition unwanted (self : SchedulingProblem) (pref ws : list Z) : nat :=
  let days := shiftsPerWeek self / shiftPerDay self in
  length (filter (fun k => (tiled_preference pref k =? 0)%Z
                           && (nth k ws 0 =? 1)%Z)
                 (seq 0 (Nat.min (days * length pref) (length ws)))).

(** The shifts the dictionary holds for the [i]-th worker of the list. *)
Definition shifts_of (self : SchedulingProblem) (d : workersShifts) (i : nat)
  : list Z :=
  match nth_error (workers self) i with
  | Some worker =>
      match Py.lookup d worker with
      | Ok ws => ws
      | Raise _ => []
      end
  | None => []
  end.

Definition preference_total (self : SchedulingProblem) (d : workersShifts)
  : Z :=
  Zsum (map (fun i => Z.of_nat (unwanted self (nth i (shiftPreference self) [])
                                         (shifts_of self d i)))
            (seq 0 (length (shiftPreference self)))).

(** The night slots the competence rule looks at, and the number of them a
    worker is scheduled on. *)
Definition night_window : list nat := [2; 5; 8; 11; 14; 17; 20; 23; 26; 29].

Definition scheduled_at (ws : list Z) (k : nat) : bool :=
  match nth_error ws k with
  | Some x => (x =? 1)%Z
  | None => false
  end.

Definition night_count (ws : list Z) : nat :=
  length (filter (scheduled_at ws) night_window).

Definition competence_of (workerIndex : nat) (ws : list Z) : Z :=
  if 5 <=? workerIndex then Z.of_nat (night_count ws) else 0%Z.

Definition competence_total (d : workersShifts) : Z :=
  Zsum (map (fun iw => competence_of (fst iw) (snd iw))
            (Py.enumerate (Py.values d))).

(** Names the body of the loop of the goal, so that unfolding one round
    leaves the remaining rounds as they are. *)
Ltac name_body body :=
  match goal with
  | |- context [foldM ?b] => set (body := b)
  | |- context [fold_left ?b] => set (body := b)
  end.

Ltac name_for body :=
  match goal with
  | |- context [for_each ?b] => set (body := b)
  end.

(** ** Lists, sums and loops *)

Lemma foldM_cons {S A : Type} (body : S -> A -> result S) (x : A)
  (l : list A) (s : S) :
  foldM body (x :: l) s = (s' <- body s x ;; foldM body l s').
Proof. reflexivity. Qed.

Lemma fold_left_cons {S A : Type} (body : S -> A -> S) (x : A) (l : list A)
  (s : S) :
  fold_left body (x :: l) s = fold_left body l (body s x).
Proof. reflexivity. Qed.

Lemma Zsum_cons (x : Z) (l : list Z) : Zsum (x :: l) = (x + Zsum l)%Z.
Proof. reflexivity. Qed.

Lemma Zsum_app (a b : list Z) : Zsum (a ++ b) = (Zsum a + Zsum b)%Z.
Proof.
  induction a as [|x a IH]; simpl; [reflexivity | rewrite IH; lia].
Qed.

Lemma fold_add_Zsum (l : list Z) (acc : Z) :
  fold_left Z.add l acc = (acc + Zsum l)%Z.
Proof.
  revert acc; induction l as [|x l IH]; intro acc; simpl.
  - lia.
  - rewrite IH; lia.
Qed.

Lemma sum_Zsum (l : list Z) : Py.sum l = Zsum l.
Proof. unfold Py.sum; rewrite fold_add_Zsum; lia. Qed.

Lemma Zsum_nonneg (l : list Z) :
  Forall (fun x => 0 <= x)%Z l -> (0 <= Zsum l)%Z.
Proof.
  induction 1 as [|x l Hx _ IH]; simpl; lia.
Qed.

Lemma Zsum_map_nonneg {A : Type} (f : A -> Z) (l : list A) :
  (forall x, 0 <= f x)%Z -> (0 <= Zsum (map f l))%Z.
Proof.
  intro H; apply Zsum_nonneg, Forall_map, Forall_forall; intros; apply H.
Qed.

(** Counting over a list is counting over its indices. *)
Lemma filter_seq_shift (f : nat -> bool) (start len : nat) :
  length (filter f (seq (S start) len))
  = length (filter (fun k => f (S k)) (seq start len)).
Proof.
  revert start; induction len as [|len IH]; intro start; simpl.
  - reflexivity.
  - destruct (f (S start)); simpl; rewrite IH; reflexivity.
Qed.

Lemma filter_combine_index {A B : Type} (t : A -> B -> bool)
  (a : list A) (b : list B) (da : A) (db : B) :
  length (filter (fun ab => t (fst ab) (snd ab)) (combine a b))
  = length (filter (fun k => t (nth k a da) (nth k b db))
                   (seq 0 (Nat.min (length a) (length b)))).
Proof.
  revert b; induction a as [|x a IH]; intros [|y b]; simpl; try reflexivity.
  destruct (t x y); simpl; rewrite filter_seq_shift; simpl;
    rewrite IH; reflexivity.
Qed.

Lemma filter_ext_length {A : Type} (f g : A -> bool) (l : list A) :
  (forall x, In x l -> f x = g x) ->
  length (filter f l) = length (filter g l).
Proof.
  intro H; rewrite (filter_ext_in f g l H); reflexivity.
Qed.

(** ** Consecutive shifts *)

Lemma consecutive_loop (pairs : list (Z * Z)) (violations : Z) :
  fold_left
    (fun violations '(shift1, shift2) =>
       if (shift1 =? 1)%Z && (shift2 =? 1)%Z
       then (violations + 1)%Z else violations)
    pairs violations
  = (violations
     + Z.of_nat (length (filter (fun ab => (fst ab =? 1)%Z && (snd ab =? 1)%Z)
                                pairs)))%Z.
Proof.
  revert violations; induction pairs as [|[a b] pairs IH]; intro v; simpl.
  - lia.
  - rewrite IH; destruct ((a =? 1)%Z && (b =? 1)%Z); simpl length; lia.
Qed.

Lemma nth_slice_from_1 (ws : list Z) (k : nat) :
  nth k (Py.slice_from ws 1) 0%Z = nth (S k) ws 0%Z.
Proof.
  destruct ws as [|x ws]; simpl; [destruct k; reflexivity | reflexivity].
Qed.

Lemma length_slice_from_1 (ws : list Z) :
  length (Py.slice_from ws 1) = length ws - 1.
Proof. destruct ws; simpl; lia. Qed.

Lemma adjacent_pairs_zip (ws : list Z) :
  length (filter (fun ab => (fst ab =? 1)%Z && (snd ab =? 1)%Z)
                 (Py.zip ws (Py.slice_from ws 1)))
  = adjacent_pairs ws.
Proof.
  unfold Py.zip, adjacent_pairs.
  rewrite (filter_combine_index (fun a b => (a =? 1)%Z && (b =? 1)%Z)
             ws (Py.slice_from ws 1) 0%Z 0%Z).
  rewrite length_slice_from_1.
  replace (Nat.min (length ws) (length ws - 1)) with (length ws - 1) by lia.
  apply filter_ext_length; intros k _.
  unfold both_scheduled; rewrite nth_slice_from_1; reflexivity.
Qed.

Lemma consecutive_workers (vals : list (list Z)) (violations : Z) :
  fold_left
    (fun violations workerShifts =>
       fold_left
         (fun violations '(shift1, shift2) =>
            if (shift1 =? 1)%Z && (shift2 =? 1)%Z
            then (violations + 1)%Z else violations)
         (Py.zip workerShifts (Py.slice_from workerShifts 1))
         violations)
    vals violations
  = (violations + Zsum (map (fun ws => Z.of_nat (adjacent_pairs ws)) vals))%Z.
Proof.
  revert violations; induction vals as [|ws vals IH]; intro v; simpl.
  - lia.
  - rewrite IH, consecutive_loop, adjacent_pairs_zip; lia.
Qed.

(** C5.  [countConsecutiveShiftViolations] is the total, over the workers of
    the dictionary, of the number of positions [k] of the worker's whole
    sequence with a 1 at [k] and at [k+1].  The count depends on positions
    only: a pair that straddles a day or a week is a pair like any other. *)
Theorem countConsecutiveShiftViolations_adjacent_pairs :
  forall d : workersShifts,
    countConsecutiveShiftViolations d = consecutive_total d.
Proof.
  intro d; unfold countConsecutiveShiftViolations, consecutive_total.
  rewrite consecutive_workers; lia.
Qed.

(** ** Competence *)

Lemma getitem_app_middle {A : Type} (pre l : list A) (x : A) :
  Py.getitem (pre ++ x :: l) (length pre) = Ok x.
Proof.
  unfold Py.getitem.
  rewrite nth_error_app2 by lia.
  rewrite Nat.sub_diag; reflexivity.
Qed.

Lemma competence_scan (pre l : list Z) (violations : Z) :
  foldM
    (fun violations i =>
       shift <- Py.getitem (pre ++ l) i ;;
       if (shift =? 1)%Z then Ok (violations + 1)%Z else Ok violations)
    (seq (length pre) (length l)) violations
  = Ok (violations + Z.of_nat (length (filter (fun x => (x =? 1)%Z) l)))%Z.
Proof.
  revert pre violations; induction l as [|x l IH]; intros pre v.
  - simpl; f_equal; lia.
  - cbn [length seq foldM filter].
    rewrite getitem_app_middle; cbn [bind].
    specialize (IH (pre ++ [x])).
    rewrite <- app_assoc, length_app in IH; simpl in IH.
    rewrite Nat.add_1_r in IH.
    destruct (x =? 1)%Z; cbn [bind]; rewrite IH; simpl length; f_equal; lia.
Qed.

Lemma competence_nights (l : list Z) (violations : Z) :
  foldM
    (fun violations i =>
       shift <- Py.getitem l i ;;
       if (shift =? 1)%Z then Ok (violations + 1)%Z else Ok violations)
    (Py.range_len (length l)) violations
  = Ok (violations + Z.of_nat (length (filter (fun x => (x =? 1)%Z) l)))%Z.
Proof. exact (competence_scan [] l violations). Qed.

Lemma indices_night_window (n : nat) :
  Py.indices 2 (Nat.min 30 n) 3 = filter (fun k => k <? n) night_window.
Proof.
  destruct (le_lt_dec 30 n) as [Hge | Hlt].
  - rewrite Nat.min_l by assumption.
    unfold night_window; simpl filter.
    repeat match goal with
           | |- context [?k <? n] =>
               replace (k <? n) with true by (symmetry; apply Nat.ltb_lt; lia)
           end.
    reflexivity.
  - do 30 (destruct n as [|n]; [reflexivity|]); lia.
Qed.

Lemma flat_map_filter_skip {A B : Type} (f : A -> list B) (p : A -> bool)
  (l : list A) :
  (forall x, In x l -> p x = false -> f x = []) ->
  flat_map f (filter p l) = flat_map f l.
Proof.
  induction l as [|x l IH]; intro H; simpl; [reflexivity|].
  destruct (p x) eqn:Hp; simpl.
  - rewrite IH; [reflexivity | intros; apply H; simpl; auto].
  - rewrite (H x) by (simpl; auto).
    rewrite IH; [reflexivity | intros; apply H; simpl; auto].
Qed.

Lemma slice_step_night_window (ws : list Z) :
  Py.slice_step ws 2 30 3
  = flat_map (fun i => match nth_error ws i with
                       | Some x => [x]
                       | None => []
                       end) night_window.
Proof.
  unfold Py.slice_step; rewrite indices_night_window.
  apply flat_map_filter_skip; intros k _ Hk.
  apply Nat.ltb_ge in Hk.
  rewrite (proj2 (nth_error_None ws k)) by assumption; reflexivity.
Qed.

Lemma count_scheduled (ws : list Z) (positions : list nat) :
  length (filter (fun x => (x =? 1)%Z)
                 (flat_map (fun i => match nth_error ws i with
                                     | Some x => [x]
                                     | None => []
                                     end) positions))
  = length (filter (scheduled_at ws) positions).
Proof.
  induction positions as [|k positions IH]; simpl; [reflexivity|].
  rewrite filter_app, length_app, IH; unfold scheduled_at.
  destruct (nth_error ws k) as [x|]; simpl; [|reflexivity].
  destruct (x =? 1)%Z; reflexivity.
Qed.

Lemma scheduled_at_true (ws : list Z) (k : nat) :
  nth_error ws k = Some 1%Z -> scheduled_at ws k = true.
Proof. unfold scheduled_at; intros ->; reflexivity. Qed.

Lemma scheduled_at_false (ws : list Z) (k : nat) :
  nth_error ws k <> Some 1%Z -> scheduled_at ws k = false.
Proof.
  unfold scheduled_at; intro H.
  destruct (nth_error ws k) as [x|]; [|reflexivity].
  apply Z.eqb_neq; intro; subst; apply H; reflexivity.
Qed.

Lemma competence_workers (vals : list (list Z)) (start : nat) (violations : Z) :
  foldM
    (fun violations '(workerIndex, workerShifts) =>
       let nightShifts := Py.slice_step workerShifts 2 30 3 in
       if (4 <? workerIndex)%nat
       then
         foldM
           (fun violations i =>
              shift <- Py.getitem nightShifts i ;;
              if (shift =? 1)%Z
              then Ok (violations + 1)%Z else Ok violations)
           (Py.range_len (length nightShifts)) violations
       else Ok violations)
    (combine (seq start (length vals)) vals) violations
  = Ok (violations
        + Zsum (map (fun iw => competence_of (fst iw) (snd iw))
                    (combine (seq start (length vals)) vals)))%Z.
Proof.
  name_body body.
  revert start violations; induction vals as [|ws vals IH]; intros i v.
  - simpl; f_equal; lia.
  - simpl length; simpl seq; simpl combine; simpl map.
    rewrite foldM_cons, Zsum_cons; unfold body at 1; cbv beta iota zeta.
    rewrite competence_nights, slice_step_night_window, count_scheduled.
    fold (night_count ws).
    unfold competence_of at 1; cbn [fst snd].
    change (5 <=? i) with (4 <? i).
    destruct (4 <? i); cbn [bind]; rewrite IH; f_equal; lia.
Qed.

Lemma countCompetenceViolations_total (d : workersShifts) :
  countCompetenceViolations d = Ok (competence_total d).
Proof.
  unfold countCompetenceViolations, competence_total, Py.enumerate.
  rewrite competence_workers; f_equal.
Qed.

(** C3.  [countCompetenceViolations] adds, for every worker of index 5 or
    more in the order of the dictionary and for no other worker, the number
    of 1s the worker has at the positions 2, 5, ..., 29 of the sub-sequence
    (those of them the sub-sequence has).  The method reads nothing of the
    configuration, so the window does not move with the number of weeks.  A
    worker of index 5 or more with a 1 on the night slot of each of the 7
    days of the first week, and none at 23, 26 and 29, contributes 7; a
    worker of index 4 or less contributes 0 whatever the shifts are. *)
Theorem countCompetenceViolations_night_window :
  (forall d : workersShifts,
      countCompetenceViolations d = Ok (competence_total d))
  /\ (forall (i : nat) (ws : list Z), i <= 4 -> competence_of i ws = 0%Z)
  /\ (forall (i : nat) (ws : list Z),
         5 <= i ->
         (forall day, day < 7 -> nth_error ws (2 + 3 * day) = Some 1%Z) ->
         (forall k, In k [23; 26; 29] -> nth_error ws k <> Some 1%Z) ->
         competence_of i ws = 7%Z).
Proof.
  split; [|split].
  - intro d; apply countCompetenceViolations_total.
  - intros i ws Hi; unfold competence_of.
    replace (5 <=? i) with false by (symmetry; apply Nat.leb_gt; lia).
    reflexivity.
  - intros i ws Hi Hweek Hrest; unfold competence_of.
    replace (5 <=? i) with true by (symmetry; apply Nat.leb_le; lia).
    unfold night_count, night_window; cbn [filter].
    rewrite (scheduled_at_true ws 2 (Hweek 0 ltac:(lia))),
      (scheduled_at_true ws 5 (Hweek 1 ltac:(lia))),
      (scheduled_at_true ws 8 (Hweek 2 ltac:(lia))),
      (scheduled_at_true ws 11 (Hweek 3 ltac:(lia))),
      (scheduled_at_true ws 14 (Hweek 4 ltac:(lia))),
      (scheduled_at_true ws 17 (Hweek 5 ltac:(lia))),
      (scheduled_at_true ws 20 (Hweek 6 ltac:(lia))).
    rewrite (scheduled_at_false ws 23), (scheduled_at_false ws 26),
      (scheduled_at_false ws 29) by (apply Hrest; simpl; auto).
    reflexivity.
Qed.

(** ** Shifts per week *)

Lemma indices_weeks (w step : nat) :
  step <> 0 ->
  Py.indices 0 (w * step) step = map (fun k => k * step) (seq 0 w).
Proof.
  intro Hstep; unfold Py.indices.
  rewrite Nat.sub_0_r, Nat.div_add_l by assumption.
  rewrite Nat.div_small by lia.
  rewrite Nat.add_0_r; reflexivity.
Qed.

Lemma range_weeks (w step : nat) :
  step <> 0 ->
  Py.range 0 (w * step) step = Ok (map (fun k => k * step) (seq 0 w)).
Proof.
  intro Hstep; unfold Py.range.
  destruct step as [|step]; [contradiction|].
  rewrite indices_weeks by assumption; reflexivity.
Qed.

Lemma Zsum_zeros {A : Type} (l : list A) : Zsum (map (fun _ => 0%Z) l) = 0%Z.
Proof. induction l as [|x l IH]; simpl; [reflexivity | rewrite IH; lia]. Qed.

Lemma Zsum_firstn (l : list Z) (n : nat) :
  Zsum (firstn n l) = Zsum (map (fun k => nth k l 0%Z) (seq 0 n)).
Proof.
  revert l; induction n as [|n IH]; intro l; [reflexivity|].
  simpl seq; simpl map; rewrite <- seq_shift, map_map, Zsum_cons.
  destruct l as [|x l]; simpl firstn; rewrite ?Zsum_cons.
  - change (map (fun x => nth (S x) [] 0%Z) (seq 0 n))
      with (map (fun _ : nat => 0%Z) (seq 0 n)).
    rewrite Zsum_zeros; reflexivity.
  - rewrite IH; reflexivity.
Qed.

Lemma sum_slice (ws : list Z) (i n : nat) :
  Py.sum (Py.slice ws i (i + n))
  = Zsum (map (fun k => nth (i + k) ws 0%Z) (seq 0 n)).
Proof.
  rewrite sum_Zsum; unfold Py.slice.
  replace (i + n - i) with n by lia.
  rewrite Zsum_firstn.
  f_equal; apply map_ext; intro k; apply nth_skipn.
Qed.

Lemma week_loop (self : SchedulingProblem) (ws : list Z)
  (week_list : list nat) (violations : Z) (weeklyShiftsList : list Z) :
  fold_left
    (fun '(violations, weeklyShiftsList) i =>
       let weeklyShifts :=
         Py.sum (Py.slice ws i (i + shiftsPerWeek self)) in
       let weeklyShiftsList := weeklyShiftsList ++ [weeklyShifts] in
       if (weeklyShifts >? maxShiftsPerWeek self)%Z
       then ((violations + (weeklyShifts - maxShiftsPerWeek self))%Z,
             weeklyShiftsList)
       else (violations, weeklyShiftsList))
    (map (fun k => k * shiftsPerWeek self) week_list)
    (violations, weeklyShiftsList)
  = ((violations
      + Zsum (map (excess self) (map (week_total self ws) week_list)))%Z,
     weeklyShiftsList ++ map (week_total self ws) week_list).
Proof.
  name_body body.
  assert (Hround : forall v wl w,
             body (v, wl) (w * shiftsPerWeek self)
             = ((v + excess self (week_total self ws w))%Z,
                wl ++ [week_total self ws w])).
  { intros v wl w; unfold body; cbv beta iota zeta.
    rewrite sum_slice; fold (week_total self ws w); unfold excess.
    destruct (week_total self ws w >? maxShiftsPerWeek self)%Z;
      f_equal; lia. }
  clearbody body.
  revert violations weeklyShiftsList.
  induction week_list as [|w week_list IH]; intros v wl.
  - simpl; rewrite app_nil_r; f_equal; lia.
  - simpl map; rewrite fold_left_cons, Hround, IH, !Zsum_cons, <- app_assoc.
    simpl app; f_equal; lia.
Qed.

Lemma weeks_workers (self : SchedulingProblem) (vals : list (list Z))
  (violations : Z) (weeklyShiftsList : list Z) :
  shiftsPerWeek self <> 0 ->
  foldM
    (fun st workerShifts =>
       starts <- Py.range 0 (weeks self * shiftsPerWeek self)
                          (shiftsPerWeek self) ;;
       Ok (fold_left
             (fun '(violations, weeklyShiftsList) i =>
                let weeklyShifts :=
                  Py.sum (Py.slice workerShifts i
                                   (i + shiftsPerWeek self)) in
                let weeklyShiftsList :=
                  weeklyShiftsList ++ [weeklyShifts] in
                if (weeklyShifts >? maxShiftsPerWeek self)%Z
                then ((violations
                       + (weeklyShifts - maxShiftsPerWeek self))%Z,
                      weeklyShiftsList)
                else (violations, weeklyShiftsList))
             starts st))
    vals (violations, weeklyShiftsList)
  = Ok ((violations
         + Zsum (map (excess self)
                     (flat_map (fun ws => map (week_total self ws)
                                              (seq 0 (weeks self))) vals)))%Z,
        weeklyShiftsList
          ++ flat_map (fun ws => map (week_total self ws)
                                     (seq 0 (weeks self))) vals).
Proof.
  intro Hstep; name_body body.
  revert violations weeklyShiftsList.
  induction vals as [|ws vals IH]; intros v wl.
  - simpl; rewrite app_nil_r; do 2 f_equal; lia.
  - rewrite foldM_cons; unfold body at 1.
    rewrite range_weeks by assumption; cbn [bind].
    rewrite week_loop, IH; simpl flat_map.
    rewrite map_app, Zsum_app, <- app_assoc; do 2 f_equal; lia.
Qed.

Lemma countShiftsPerWeekViolations_total (self : SchedulingProblem)
  (d : workersShifts) :
  shiftsPerWeek self <> 0 ->
  countShiftsPerWeekViolations self d
  = Ok (weekly_totals self d, weekly_excess self d).
Proof.
  intro Hstep.
  unfold countShiftsPerWeekViolations, weekly_totals, weekly_excess.
  rewrite weeks_workers by assumption; reflexivity.
Qed.

(** C7.  With a positive number of shifts per week,
    [countShiftsPerWeekViolations] returns the pair of the list of totals,
    one per worker and week in the order of the workers and then of the
    weeks, each the sum of the window of [shiftsPerWeek] positions of that
    week, and of the sum of the excesses: a window whose total is above
    [maxShiftsPerWeek] adds the difference, any other window adds nothing. *)
Theorem countShiftsPerWeekViolations_excess :
  forall (self : SchedulingProblem) (d : workersShifts),
    shiftsPerWeek self <> 0 ->
    countShiftsPerWeekViolations self d
    = Ok (weekly_totals self d, weekly_excess self d)
    /\ (forall total,
           (total > maxShiftsPerWeek self)%Z ->
           excess self total = (total - maxShiftsPerWeek self)%Z)
    /\ (forall total,
           (total <= maxShiftsPerWeek self)%Z -> excess self total = 0%Z).
Proof.
  intros self d Hstep; split; [|split].
  - apply countShiftsPerWeekViolations_total; assumption.
  - intros total H; unfold excess.
    destruct (Z.gtb_spec total (maxShiftsPerWeek self)); [reflexivity | lia].
  - intros total H; unfold excess.
    destruct (Z.gtb_spec total (maxShiftsPerWeek self)); [lia | reflexivity].
Qed.

(** ** Workers per shift *)

Lemma getitem_nth {A : Type} (l : list A) (i : nat) (d : A) :
  i < length l -> Py.getitem l i = Ok (nth i l d).
Proof.
  intro Hi; unfold Py.getitem.
  rewrite (nth_error_nth' l d Hi); reflexivity.
Qed.

Lemma heads_uniform (vals : list (list Z)) (n : nat) :
  Forall (fun ws => length ws = S n) vals ->
  Py.heads vals = Some (map (fun ws => nth 0 ws 0%Z) vals).
Proof.
  induction 1 as [|ws vals Hws _ IH]; [reflexivity|].
  destruct ws as [|x ws]; [discriminate|].
  simpl; rewrite IH; reflexivity.
Qed.

Lemma tails_uniform (vals : list (list Z)) (n : nat) :
  Forall (fun ws => length ws = S n) vals ->
  Forall (fun ws => length ws = n) (map (@tl Z) vals).
Proof.
  intro H; apply Forall_map; revert H; apply Forall_impl.
  intros [|x ws]; simpl; [discriminate | lia].
Qed.

Lemma nth_tl (ws : list Z) (j : nat) : nth j (tl ws) 0%Z = nth (S j) ws 0%Z.
Proof. destruct ws; [destruct j|]; reflexivity. Qed.

Lemma zip_rows_uniform (n : nat) (vals : list (list Z)) :
  Forall (fun ws => length ws = n) vals ->
  Py.zip_rows n vals
  = map (fun j => map (fun ws => nth j ws 0%Z) vals) (seq 0 n).
Proof.
  revert vals; induction n as [|n IH]; intros vals H; [reflexivity|].
  simpl Py.zip_rows; rewrite (heads_uniform H).
  rewrite (IH _ (tails_uniform H)).
  simpl seq; simpl map; rewrite <- seq_shift, map_map.
  f_equal; apply map_ext; intro j.
  rewrite map_map; apply map_ext; intro ws; apply nth_tl.
Qed.

Lemma zip_star_uniform (n : nat) (vals : list (list Z)) :
  vals <> [] ->
  Forall (fun ws => length ws = n) vals ->
  Py.zip_star vals
  = map (fun j => map (fun ws => nth j ws 0%Z) vals) (seq 0 n).
Proof.
  intros Hne H; destruct vals as [|ws vals]; [contradiction|].
  unfold Py.zip_star.
  rewrite (Forall_inv H); apply zip_rows_uniform; assumption.
Qed.

Lemma combine_seq_map {B : Type} (g : nat -> B) (start n : nat) :
  combine (seq start n) (map g (seq start n))
  = map (fun j => (j, g j)) (seq start n).
Proof.
  generalize (seq start n); intro l.
  induction l as [|j l IH]; simpl; [reflexivity | rewrite IH; reflexivity].
Qed.

Section Staffing.

Variable self : SchedulingProblem.
Hypothesis Hday : shiftPerDay self <> 0.
Hypothesis Hmax : shiftPerDay self <= length (shiftMax self).
Hypothesis Hmin : shiftPerDay self <= length (shiftMin self).

Lemma staffing_round (violations : Z) (shiftIndex : nat) (numOfWorkers : Z) :
  (dailyShiftIndex <- Py.mod_ shiftIndex (shiftPerDay self) ;;
   upper <- Py.getitem (shiftMax self) dailyShiftIndex ;;
   if (numOfWorkers >? upper)%Z
   then Ok (violations + (numOfWorkers - upper))%Z
   else
     lower <- Py.getitem (shiftMin self) dailyShiftIndex ;;
     if (numOfWorkers <? lower)%Z
     then Ok (violations + (lower - numOfWorkers))%Z
     else Ok violations)
  = Ok (violations + staffing_penalty self shiftIndex numOfWorkers)%Z.
Proof.
  assert (Htype : shiftIndex mod shiftPerDay self < shiftPerDay self)
    by (apply Nat.mod_upper_bound; assumption).
  unfold Py.mod_, staffing_penalty.
  destruct (shiftPerDay self) as [|spd] eqn:Hspd; [contradiction|].
  rewrite <- Hspd in *; cbn [bind].
  rewrite (getitem_nth (shiftMax self) 0%Z) by lia; cbn [bind].
  rewrite (getitem_nth (shiftMin self) 0%Z) by lia; cbn [bind].
  cbv zeta.
  destruct (numOfWorkers >? _)%Z; [reflexivity|].
  destruct (numOfWorkers <? _)%Z; f_equal; lia.
Qed.

Lemma staffing_loop (slots : list (nat * Z)) (violations : Z) :
  foldM
    (fun violations '(shiftIndex, numOfWorkers) =>
       dailyShiftIndex <- Py.mod_ shiftIndex (shiftPerDay self) ;;
       upper <- Py.getitem (shiftMax self) dailyShiftIndex ;;
       if (numOfWorkers >? upper)%Z
       then Ok (violations + (numOfWorkers - upper))%Z
       else
         lower <- Py.getitem (shiftMin self) dailyShiftIndex ;;
         if (numOfWorkers <? lower)%Z
         then Ok (violations + (lower - numOfWorkers))%Z
         else Ok violations)
    slots violations
  = Ok (violations
        + Zsum (map (fun it => staffing_penalty self (fst it) (snd it))
                    slots))%Z.
Proof.
  name_body body.
  assert (Hround : forall v i n,
             body v (i, n) = Ok (v + staffing_penalty self i n)%Z)
    by (intros; apply staffing_round).
  clearbody body.
  revert violations; induction slots as [|[i n] slots IH]; intro v.
  - simpl; f_equal; lia.
  - rewrite foldM_cons, Hround; cbn [bind].
    rewrite IH; simpl map; rewrite Zsum_cons; f_equal; simpl; lia.
Qed.

(** The method never raises on such a configuration, whatever the
    dictionary is. *)
Lemma countWorkersPerShiftViolations_total (d : workersShifts) :
  countWorkersPerShiftViolations self d
  = Ok (map Py.sum (Py.zip_star (Py.values d)),
        Zsum (map (fun it => staffing_penalty self (fst it) (snd it))
                  (Py.enumerate (map Py.sum (Py.zip_star (Py.values d)))))).
Proof.
  unfold countWorkersPerShiftViolations; cbv zeta.
  rewrite staffing_loop; reflexivity.
Qed.

Lemma countWorkersPerShiftViolations_slots (d : workersShifts) (n : nat) :
  d <> [] ->
  Forall (fun ws => length ws = n) (Py.values d) ->
  countWorkersPerShiftViolations self d
  = Ok (map (slot_total d) (seq 0 n), staffing_total self d n).
Proof.
  intros Hne Hrows.
  assert (Hvals : Py.values d <> [])
    by (destruct d; [contradiction | discriminate]).
  rewrite countWorkersPerShiftViolations_total.
  rewrite (zip_star_uniform Hvals Hrows), map_map.
  assert (Htotals : map (fun j => Py.sum (map (fun ws => nth j ws 0%Z)
                                              (Py.values d))) (seq 0 n)
                    = map (slot_total d) (seq 0 n))
    by (apply map_ext; intro j; apply sum_Zsum).
  rewrite Htotals; unfold Py.enumerate, staffing_total.
  rewrite length_map, length_seq, combine_seq_map, map_map; reflexivity.
Qed.

End Staffing.

(** ** The decomposition *)

Lemma setitem_fresh {V : Type} (d : Py.dict V) (k : string) (v : V) :
  ~ In k (Py.keys d) -> Py.setitem d k v = d ++ [(k, v)].
Proof.
  induction d as [|[k' v'] d IH]; intro Hk; simpl; [reflexivity|].
  simpl in Hk.
  destruct (String.eqb_spec k' k) as [-> | _]; [tauto|].
  rewrite IH by tauto; reflexivity.
Qed.

Lemma keys_app {V : Type} (a b : Py.dict V) :
  Py.keys (a ++ b) = Py.keys a ++ Py.keys b.
Proof. apply map_app. Qed.

Lemma keys_combine {V : Type} (names : list string) (vs : list V) :
  length names = length vs -> Py.keys (combine names vs) = names.
Proof.
  revert vs; induction names as [|k names IH]; intros [|v vs] H;
    try discriminate; simpl; [reflexivity|].
  f_equal; apply IH; simpl in H; lia.
Qed.

Lemma values_combine {V : Type} (names : list string) (vs : list V) :
  length names = length vs -> Py.values (combine names vs) = vs.
Proof.
  revert vs; induction names as [|k names IH]; intros [|v vs] H;
    try discriminate; simpl; [reflexivity|].
  f_equal; apply IH; simpl in H; lia.
Qed.

Lemma decompose_loop (sched : schedule) (size : nat) (names : list string)
  (d : workersShifts) (shiftIndex : nat) :
  NoDup names ->
  (forall k, In k names -> ~ In k (Py.keys d)) ->
  fold_left
    (fun '(workersShiftsDict, shiftIndex) worker =>
       (Py.setitem workersShiftsDict worker
          (Py.slice sched shiftIndex (shiftIndex + size)),
        (shiftIndex + size)%nat))
    names (d, shiftIndex)
  = (d ++ combine names
            (map (fun j => Py.slice sched (shiftIndex + j * size)
                                    (shiftIndex + j * size + size))
                 (seq 0 (length names))),
     shiftIndex + length names * size).
Proof.
  name_body body.
  revert d shiftIndex; induction names as [|w names IH];
    intros d idx Hnodup Hfresh.
  - simpl; rewrite app_nil_r; f_equal; lia.
  - rewrite fold_left_cons; unfold body at 2.
    rewrite setitem_fresh by (apply Hfresh; simpl; auto).
    inversion Hnodup as [|w' names' Hw Hnames]; subst.
    rewrite IH; [| assumption |].
    + simpl length; simpl seq; simpl map; simpl combine.
      rewrite <- seq_shift, map_map, <- app_assoc; simpl app.
      rewrite Nat.add_0_r.
      f_equal; [|lia].
      do 3 f_equal; apply map_ext; intro j.
      f_equal; lia.
    + intros k Hk; rewrite keys_app, in_app_iff; simpl.
      intros [Hin | [-> | []]]; [| contradiction].
      apply (Hfresh k); [simpl; auto | assumption].
Qed.

Lemma getWorkerShifts_partition (self : SchedulingProblem) (sched : schedule) :
  workers self <> [] ->
  NoDup (workers self) ->
  getWorkerShifts self sched = Ok (partition self sched).
Proof.
  intros Hne Hnodup; unfold getWorkerShifts, Py.floordiv.
  destruct (length (workers self)) as [|m] eqn:Hm;
    [destruct (workers self); [contradiction | discriminate]|].
  rewrite <- Hm; cbn [bind].
  rewrite decompose_loop; [| assumption | intros k _ []].
  reflexivity.
Qed.

Lemma firstn_plus {A : Type} (a b : nat) (l : list A) :
  firstn (a + b) l = firstn a l ++ firstn b (skipn a l).
Proof.
  revert l; induction a as [|a IH]; intro l; [reflexivity|].
  destruct l as [|x l]; simpl.
  - rewrite firstn_nil; reflexivity.
  - rewrite IH; reflexivity.
Qed.

Lemma concat_chunks (sched : schedule) (size m : nat) :
  concat (map (chunk sched size) (seq 0 m)) = firstn (m * size) sched.
Proof.
  induction m as [|m IH]; [reflexivity|].
  rewrite seq_S, map_app, concat_app, IH; simpl.
  rewrite app_nil_r; unfold chunk, Py.slice.
  replace (m * size + size - m * size) with size by lia.
  replace (size + m * size) with (m * size + size) by lia.
  symmetry; apply firstn_plus.
Qed.

Lemma length_chunk (sched : schedule) (size i : nat) :
  i * size + size <= length sched -> length (chunk sched size i) = size.
Proof.
  intro H; unfold chunk, Py.slice.
  rewrite length_firstn, length_skipn; lia.
Qed.

Lemma len_per_worker (self : SchedulingProblem) :
  workers self <> [] ->
  length (workers self) * (__len__ self / length (workers self))
  = __len__ self.
Proof.
  intro Hne; unfold __len__.
  assert (Hm : length (workers self) <> 0)
    by (destruct (workers self); [contradiction | discriminate]).
  set (m := length (workers self)) in *.
  replace (m * shiftsPerWeek self * weeks self)
    with (shiftsPerWeek self * weeks self * m) by lia.
  rewrite Nat.div_mul by assumption; lia.
Qed.

Lemma partition_keys (self : SchedulingProblem) (sched : schedule) :
  Py.keys (partition self sched) = workers self.
Proof.
  unfold partition; apply keys_combine.
  rewrite length_map, length_seq; reflexivity.
Qed.

Lemma partition_values (self : SchedulingProblem) (sched : schedule) :
  Py.values (partition self sched)
  = map (chunk sched (__len__ self / length (workers self)))
        (seq 0 (length (workers self))).
Proof.
  unfold partition; apply values_combine.
  rewrite length_map, length_seq; reflexivity.
Qed.

Lemma partition_rows (self : SchedulingProblem) (sched : schedule) :
  workers self <> [] ->
  length sched = __len__ self ->
  Forall (fun ws => length ws = __len__ self / length (workers self))
         (Py.values (partition self sched)).
Proof.
  intros Hne Hlen; rewrite partition_values.
  apply Forall_map, Forall_forall; intros i Hi.
  apply in_seq in Hi; apply length_chunk.
  pose proof (@len_per_worker self Hne) as Hsize.
  rewrite Hlen; nia.
Qed.

(** C4, as the code has it.  [getWorkerShifts] checks no length (the check
    is in [getCost]): with at least one worker and distinct worker names it
    returns, for a schedule of any length, the dictionary whose keys are the
    workers in the order of the list and whose [i]-th value is the slice of
    the schedule from [i * size] to [i * size + size], where [size] is
    [__len__ // len(workers)].  When the schedule has [__len__] entries,
    the values are chunks of [size] entries each and, joined in order, give
    the schedule back. *)
Theorem getWorkerShifts_chunks :
  forall (self : SchedulingProblem) (sched : schedule),
    workers self <> [] ->
    NoDup (workers self) ->
    getWorkerShifts self sched = Ok (partition self sched)
    /\ Py.keys (partition self sched) = workers self
    /\ (length sched = __len__ self ->
        concat (Py.values (partition self sched)) = sched
        /\ Forall (fun ws => length ws
                             = __len__ self / length (workers self))
                  (Py.values (partition self sched))).
Proof.
  intros self sched Hne Hnodup; split; [|split].
  - apply getWorkerShifts_partition; assumption.
  - apply partition_keys.
  - intro Hlen; split; [|apply partition_rows; assumption].
    rewrite partition_values, concat_chunks, (@len_per_worker self Hne), <- Hlen.
    apply firstn_all.
Qed.

(** C4, as the specification states it, fails: a schedule of 209 entries is
    decomposed without any error. *)
Lemma getWorkerShifts_accepts_wrong_size :
  length (repeat 1%Z 209) <> __len__ (__init__ 10)
  /\ getWorkerShifts (__init__ 10) (repeat 1%Z 209)
     = Ok (partition (__init__ 10) (repeat 1%Z 209))
  /\ forall e, getWorkerShifts (__init__ 10) (repeat 1%Z 209) <> Raise e.
Proof.
  split; [vm_compute; discriminate|].
  assert (H : getWorkerShifts (__init__ 10) (repeat 1%Z 209)
              = Ok (partition (__init__ 10) (repeat 1%Z 209)))
    by (vm_compute; reflexivity).
  split; [exact H | intros e He; rewrite H in He; discriminate].
Qed.

(** ** Shift preferences *)

Lemma preference_loop (pairs : list (Z * Z)) (violations : Z) :
  fold_left
    (fun violations '(pref, shift) =>
       if (pref =? 0)%Z && (shift =? 1)%Z
       then (violations + 1)%Z else violations)
    pairs violations
  = (violations
     + Z.of_nat (length (filter (fun ab => (fst ab =? 0)%Z && (snd ab =? 1)%Z)
                                pairs)))%Z.
Proof.
  revert violations; induction pairs as [|[a b] pairs IH]; intro v; simpl.
  - lia.
  - rewrite IH; destruct ((a =? 0)%Z && (b =? 1)%Z); simpl length; lia.
Qed.

Lemma length_list_mul {A : Type} (l : list A) (n : nat) :
  length (Py.list_mul l n) = n * length l.
Proof.
  induction n as [|n IH]; simpl; [reflexivity|].
  rewrite length_app, IH; reflexivity.
Qed.

Lemma nth_list_mul (l : list Z) (n k : nat) :
  k < n * length l ->
  nth k (Py.list_mul l n) 0%Z = tiled_preference l k.
Proof.
  unfold tiled_preference.
  revert k; induction n as [|n IH]; intros k Hk; [lia|].
  simpl Py.list_mul.
  destruct (Nat.lt_ge_cases k (length l)) as [Hlt | Hge].
  - rewrite app_nth1 by assumption.
    rewrite Nat.mod_small by assumption; reflexivity.
  - rewrite app_nth2 by lia.
    rewrite IH by (simpl in Hk; lia).
    replace k with (k - length l + 1 * length l) at 2 by lia.
    rewrite Nat.Div0.mod_add; reflexivity.
Qed.

Lemma unwanted_zip (self : SchedulingProblem) (pref ws : list Z) :
  length (filter (fun ab => (fst ab =? 0)%Z && (snd ab =? 1)%Z)
                 (Py.zip (Py.list_mul pref
                            (shiftsPerWeek self / shiftPerDay self)) ws))
  = unwanted self pref ws.
Proof.
  unfold Py.zip, unwanted; cbv zeta.
  rewrite (filter_combine_index (fun a b => (a =? 0)%Z && (b =? 1)%Z)
             _ ws 0%Z 0%Z).
  rewrite length_list_mul.
  apply filter_ext_length; intros k Hk.
  apply in_seq in Hk.
  rewrite nth_list_mul by lia; reflexivity.
Qed.

Lemma lookup_combine {V : Type} (names : list string) (vs : list V)
  (i : nat) (w : string) (v : V) :
  NoDup names ->
  nth_error names i = Some w ->
  nth_error vs i = Some v ->
  Py.lookup (combine names vs) w = Ok v.
Proof.
  intro Hnodup; revert vs i.
  induction Hnodup as [|k names Hk Hnodup IH]; intros vs i Hw Hv.
  - destruct i; discriminate.
  - destruct vs as [|v0 vs]; [destruct i; discriminate|].
    destruct i as [|i]; simpl in Hw, Hv; simpl.
    + injection Hw as ->; injection Hv as ->.
      rewrite String.eqb_refl; reflexivity.
    + destruct (String.eqb_spec k w) as [-> | _].
      * exfalso; apply Hk; apply (nth_error_In _ _ Hw).
      * apply (IH vs i); assumption.
Qed.

Lemma shifts_of_partition (self : SchedulingProblem) (sched : schedule)
  (i : nat) :
  NoDup (workers self) ->
  i < length (workers self) ->
  exists w,
    nth_error (workers self) i = Some w
    /\ Py.lookup (partition self sched) w
       = Ok (chunk sched (__len__ self / length (workers self)) i)
    /\ shifts_of self (partition self sched) i
       = chunk sched (__len__ self / length (workers self)) i.
Proof.
  intros Hnodup Hi.
  destruct (nth_error (workers self) i) as [w|] eqn:Hw;
    [| apply nth_error_None in Hw; lia].
  assert (Hlook : Py.lookup (partition self sched) w
                  = Ok (chunk sched (__len__ self / length (workers self)) i)).
  { unfold partition; apply (lookup_combine _ i Hnodup Hw).
    rewrite nth_error_map, nth_error_seq.
    replace (i <? length (workers self)) with true
      by (symmetry; apply Nat.ltb_lt; assumption).
    reflexivity. }
  exists w; split; [reflexivity | split; [assumption|]].
  unfold shifts_of; rewrite Hw, Hlook; reflexivity.
Qed.

Lemma enumerate_nth {A : Type} (l : list A) (d : A) (start : nat) :
  combine (seq start (length l)) l
  = map (fun i => (i, nth (i - start) l d)) (seq start (length l)).
Proof.
  revert start; induction l as [|x l IH]; intro start; [reflexivity|].
  simpl length; simpl seq; simpl combine; simpl map.
  rewrite Nat.sub_diag; simpl nth.
  rewrite IH; f_equal.
  apply map_ext_in; intros i Hi; apply in_seq in Hi.
  replace (i - start) with (S (i - S start)) by lia; reflexivity.
Qed.

Section Preferences.

Variable self : SchedulingProblem.
Variable d : workersShifts.
Hypothesis Hday : shiftPerDay self <> 0.

Lemma preference_round (violations : Z) (workerIndex : nat)
  (shiftPreference : list Z) (worker : string) (shifts : list Z) :
  nth_error (workers self) workerIndex = Some worker ->
  Py.lookup d worker = Ok shifts ->
  (days <- Py.floordiv (shiftsPerWeek self) (shiftPerDay self) ;;
   let preference := Py.list_mul shiftPreference days in
   worker <- Py.getitem (workers self) workerIndex ;;
   shifts <- Py.lookup d worker ;;
   Ok (fold_left
         (fun violations '(pref, shift) =>
            if (pref =? 0)%Z && (shift =? 1)%Z
            then (violations + 1)%Z else violations)
         (Py.zip preference shifts) violations))
  = Ok (violations
        + Z.of_nat (unwanted self shiftPreference
                             (shifts_of self d workerIndex)))%Z.
Proof.
  intros Hw Hlook; unfold Py.floordiv, Py.getitem, shifts_of.
  destruct (shiftPerDay self) as [|spd] eqn:Hspd; [contradiction|].
  rewrite <- Hspd; cbn [bind]; cbv zeta.
  rewrite Hw; cbn [bind]; rewrite Hlook; cbn [bind].
  rewrite preference_loop, unwanted_zip; reflexivity.
Qed.

Lemma preference_workers (prefs : list (list Z)) (start : nat)
  (violations : Z) :
  (forall i, start <= i < start + length prefs ->
             exists w, nth_error (workers self) i = Some w
                       /\ exists ws, Py.lookup d w = Ok ws) ->
  foldM
    (fun violations '(workerIndex, shiftPreference) =>
       days <- Py.floordiv (shiftsPerWeek self) (shiftPerDay self) ;;
       let preference := Py.list_mul shiftPreference days in
       worker <- Py.getitem (workers self) workerIndex ;;
       shifts <- Py.lookup d worker ;;
       Ok (fold_left
             (fun violations '(pref, shift) =>
                if (pref =? 0)%Z && (shift =? 1)%Z
                then (violations + 1)%Z else violations)
             (Py.zip preference shifts) violations))
    (combine (seq start (length prefs)) prefs) violations
  = Ok (violations
        + Zsum (map (fun ip => Z.of_nat (unwanted self (snd ip)
                                           (shifts_of self d (fst ip))))
                    (combine (seq start (length prefs)) prefs)))%Z.
Proof.
  name_body body.
  assert (Hround : forall v i pref w ws,
             nth_error (workers self) i = Some w ->
             Py.lookup d w = Ok ws ->
             body v (i, pref)
             = Ok (v + Z.of_nat (unwanted self pref (shifts_of self d i)))%Z).
  { intros v i pref w ws Hw Hlook; unfold body.
    apply preference_round with (worker := w) (shifts := ws); assumption. }
  clearbody body.
  revert start violations; induction prefs as [|pref prefs IH];
    intros start v Hkeys.
  - simpl; f_equal; lia.
  - simpl length in *; simpl seq; simpl combine; simpl map.
    rewrite foldM_cons, Zsum_cons.
    destruct (Hkeys start ltac:(lia)) as (w & Hw & ws & Hlook).
    rewrite (Hround v start pref w ws Hw Hlook); cbn [bind fst snd].
    rewrite IH by (intros i Hi; apply Hkeys; lia).
    f_equal; lia.
Qed.

Lemma countShiftPreferenceViolations_unwanted :
  (forall i, i < length (shiftPreference self) ->
             exists w, nth_error (workers self) i = Some w
                       /\ exists ws, Py.lookup d w = Ok ws) ->
  countShiftPreferenceViolations self d = Ok (preference_total self d).
Proof.
  intro Hkeys; unfold countShiftPreferenceViolations, Py.enumerate.
  rewrite preference_workers by (intros i Hi; apply Hkeys; lia).
  unfold preference_total.
  rewrite (enumerate_nth (shiftPreference self) [] 0), map_map; simpl.
  do 2 f_equal; apply map_ext; intro i.
  rewrite Nat.sub_0_r; reflexivity.
Qed.

End Preferences.

(** ** The cost *)

Lemma init_well_configured (penalty : Z) : well_configured (__init__ penalty).
Proof.
  constructor; simpl; try lia; try discriminate.
  repeat (constructor; [simpl; intuition discriminate|]); constructor.
Qed.

Lemma len_init (penalty : Z) : __len__ (__init__ penalty) = 210.
Proof. reflexivity. Qed.

Lemma partition_nonempty (self : SchedulingProblem) (sched : schedule) :
  workers self <> [] -> partition self sched <> [].
Proof.
  intros Hne Hnil; apply Hne.
  rewrite <- (partition_keys self sched), Hnil; reflexivity.
Qed.

Lemma partition_has_keys (self : SchedulingProblem) (sched : schedule) :
  well_configured self ->
  forall i, i < length (shiftPreference self) ->
            exists w, nth_error (workers self) i = Some w
                      /\ exists ws, Py.lookup (partition self sched) w = Ok ws.
Proof.
  intros Hwc i Hi.
  destruct (@shifts_of_partition self sched i (wc_unique Hwc))
    as (w & Hw & Hlook & _); [pose proof (wc_preferences Hwc); lia|].
  exists w; split; [assumption | eexists; exact Hlook].
Qed.

Lemma size_mismatch (self : SchedulingProblem) (sched : schedule) :
  length sched <> __len__ self ->
  getCost self sched
  = Raise (ValueError [PyStr "size of schedule list should be equal to ";
                       PyInt (Z.of_nat (__len__ self))]).
Proof.
  intro Hlen; unfold getCost.
  replace (length sched =? __len__ self) with false
    by (symmetry; apply Nat.eqb_neq; assumption).
  reflexivity.
Qed.

(** On a well-configured instance and a schedule of the expected length no
    step of [getCost] raises, and every counter has the value of its
    index-based description on the partition of the schedule. *)
Lemma getCost_steps (self : SchedulingProblem) (sched : schedule) :
  well_configured self ->
  length sched = __len__ self ->
  getWorkerShifts self sched = Ok (partition self sched)
  /\ countShiftsPerWeekViolations self (partition self sched)
     = Ok (weekly_totals self (partition self sched),
           weekly_excess self (partition self sched))
  /\ countWorkersPerShiftViolations self (partition self sched)
     = Ok (map (slot_total (partition self sched))
               (seq 0 (__len__ self / length (workers self))),
           staffing_total self (partition self sched)
                          (__len__ self / length (workers self)))
  /\ countShiftPreferenceViolations self (partition self sched)
     = Ok (preference_total self (partition self sched))
  /\ countCompetenceViolations (partition self sched)
     = Ok (competence_total (partition self sched))
  /\ getCost self sched
     = Ok (hardConstraintPenalty self
           * (countConsecutiveShiftViolations (partition self sched)
              + staffing_total self (partition self sched)
                               (__len__ self / length (workers self))
              + weekly_excess self (partition self sched)
              + competence_total (partition self sched))
           + preference_total self (partition self sched))%Z.
Proof.
  intros Hwc Hlen.
  pose proof (@getWorkerShifts_partition self sched
                (wc_workers Hwc) (wc_unique Hwc)) as Hd.
  pose proof (@countShiftsPerWeekViolations_total self
                (partition self sched) (wc_shiftsPerWeek Hwc)) as Hweek.
  pose proof (@countWorkersPerShiftViolations_slots self
                (wc_shiftPerDay Hwc) (wc_shiftMax Hwc) (wc_shiftMin Hwc)
                (partition self sched) _
                (@partition_nonempty self sched (wc_workers Hwc))
                (@partition_rows self sched (wc_workers Hwc) Hlen)) as Hslots.
  pose proof (@countShiftPreferenceViolations_unwanted self
                (partition self sched) (wc_shiftPerDay Hwc)
                (@partition_has_keys self sched Hwc)) as Hpref.
  pose proof (countCompetenceViolations_total (partition self sched)) as Hcomp.
  repeat (split; [assumption|]).
  unfold getCost.
  replace (length sched =? __len__ self) with true
    by (symmetry; apply Nat.eqb_eq; assumption).
  cbn [negb]; rewrite Hd; cbn [bind]; cbv zeta.
  rewrite Hweek; cbn [bind snd].
  rewrite Hslots; cbn [bind snd].
  rewrite Hpref; cbn [bind].
  rewrite Hcomp; cbn [bind].
  reflexivity.
Qed.

Lemma consecutive_total_nonneg (d : workersShifts) :
  (0 <= consecutive_total d)%Z.
Proof. apply Zsum_map_nonneg; intro; lia. Qed.

Lemma countConsecutiveShiftViolations_nonneg (d : workersShifts) :
  (0 <= countConsecutiveShiftViolations d)%Z.
Proof.
  unfold countConsecutiveShiftViolations.
  rewrite consecutive_workers.
  pose proof (consecutive_total_nonneg d); unfold consecutive_total in *; lia.
Qed.

Lemma weekly_excess_nonneg (self : SchedulingProblem) (d : workersShifts) :
  (0 <= weekly_excess self d)%Z.
Proof.
  apply Zsum_map_nonneg; intro total; unfold excess.
  destruct (Z.gtb_spec total (maxShiftsPerWeek self)); lia.
Qed.

Lemma staffing_total_nonneg (self : SchedulingProblem) (d : workersShifts)
  (slots : nat) :
  (0 <= staffing_total self d slots)%Z.
Proof.
  apply Zsum_map_nonneg; intro j; unfold staffing_penalty; cbv zeta.
  destruct (Z.gtb_spec (slot_total d j)
              (nth (j mod shiftPerDay self) (shiftMax self) 0%Z)); [lia|].
  destruct (Z.ltb_spec (slot_total d j)
              (nth (j mod shiftPerDay self) (shiftMin self) 0%Z)); lia.
Qed.

Lemma preference_total_nonneg (self : SchedulingProblem) (d : workersShifts) :
  (0 <= preference_total self d)%Z.
Proof. apply Zsum_map_nonneg; intro; lia. Qed.

Lemma competence_total_nonneg (d : workersShifts) :
  (0 <= competence_total d)%Z.
Proof.
  apply Zsum_map_nonneg; intros [i ws]; unfold competence_of; cbn [fst snd].
  destruct (5 <=? i); lia.
Qed.

(** C1.  On a well-configured instance (the one [__init__] builds is one)
    and a schedule of exactly [__len__] entries, binary or not, every
    counter returns on the decomposition of the schedule and [getCost] is
    the penalty times the sum of the consecutive, workers-per-shift,
    shifts-per-week and competence counts, plus the preference count. *)
Theorem getCost_weighted_sum :
  forall (self : SchedulingProblem) (sched : schedule),
    well_configured self ->
    length sched = __len__ self ->
    exists d weekly perWeek slots perShift pref comp,
      getWorkerShifts self sched = Ok d
      /\ countShiftsPerWeekViolations self d = Ok (weekly, perWeek)
      /\ countWorkersPerShiftViolations self d = Ok (slots, perShift)
      /\ countShiftPreferenceViolations self d = Ok pref
      /\ countCompetenceViolations d = Ok comp
      /\ getCost self sched
         = Ok (hardConstraintPenalty self
               * (countConsecutiveShiftViolations d + perShift + perWeek
                  + comp)
               + pref)%Z.
Proof.
  intros self sched Hwc Hlen.
  destruct (@getCost_steps self sched Hwc Hlen)
    as (Hd & Hweek & Hslots & Hpref & Hcomp & Hcost).
  exists (partition self sched).
  do 6 eexists.
  repeat (split; [eassumption|]).
  exact Hcost.
Qed.

Lemma getCost_weighted_sum_witness :
  exists d weekly perWeek slots perShift pref comp,
    getWorkerShifts (__init__ 10) (repeat 1%Z 210) = Ok d
    /\ countShiftsPerWeekViolations (__init__ 10) d = Ok (weekly, perWeek)
    /\ countWorkersPerShiftViolations (__init__ 10) d = Ok (slots, perShift)
    /\ countShiftPreferenceViolations (__init__ 10) d = Ok pref
    /\ countCompetenceViolations d = Ok comp
    /\ getCost (__init__ 10) (repeat 1%Z 210)
       = Ok (hardConstraintPenalty (__init__ 10)
             * (countConsecutiveShiftViolations d + perShift + perWeek + comp)
             + pref)%Z.
Proof.
  apply getCost_weighted_sum; [apply init_well_configured | reflexivity].
Defined.

(** C2.  Whatever the instance, a schedule whose length is not [__len__]
    makes [getCost] raise the [ValueError] of its first statement; nothing
    is computed before it and no cost is returned.  With the instance of
    [__init__], whose [__len__] is 210, this covers the lengths 209 and
    211. *)
Theorem getCost_rejects_wrong_size :
  forall (self : SchedulingProblem) (sched : schedule),
    length sched <> __len__ self ->
    getCost self sched
    = Raise (ValueError [PyStr "size of schedule list should be equal to ";
                         PyInt (Z.of_nat (__len__ self))])
    /\ forall cost, getCost self sched <> Ok cost.
Proof.
  intros self sched Hlen; rewrite (@size_mismatch self sched Hlen).
  split; [reflexivity | discriminate].
Qed.

Lemma getCost_rejects_wrong_size_witness :
  length (repeat 1%Z 209) <> __len__ (__init__ 10)
  /\ getCost (__init__ 10) (repeat 1%Z 209)
     = Raise (ValueError [PyStr "size of schedule list should be equal to ";
                          PyInt 210])
  /\ forall cost, getCost (__init__ 10) (repeat 1%Z 209) <> Ok cost.
Proof.
  assert (H : length (repeat 1%Z 209) <> __len__ (__init__ 10))
    by (rewrite repeat_length, len_init; lia).
  split; [exact H|].
  exact (getCost_rejects_wrong_size (__init__ 10) (repeat 1%Z 209) H).
Defined.

Example getCost_209_211 (penalty : Z) (sched : schedule) :
  length sched = 209 \/ length sched = 211 ->
  getCost (__init__ penalty) sched
  = Raise (ValueError [PyStr "size of schedule list should be equal to ";
                       PyInt 210]).
Proof.
  intro H; apply (@size_mismatch (__init__ penalty) sched).
  rewrite len_init; lia.
Qed.

(** C6.  With a positive number of shifts per day and a bound of each kind
    for every shift of the day, on a dictionary of at least one worker whose
    sequences all have [n] entries, [countWorkersPerShiftViolations] returns
    the list of the totals of the [n] slots, each the sum of the workers'
    entries at that index, and the sum over the slots of the penalty of the
    slot: with the type [index mod shiftPerDay], the total minus the maximum
    of the type when above it, the minimum of the type minus the total when
    below it, nothing otherwise.  For the schedule of 210 zeros and the
    instance of [__init__] this is the sum of the minimum of every slot, 35,
    and the four other counters return 0. *)
Theorem countWorkersPerShiftViolations_staffing :
  (forall (self : SchedulingProblem) (d : workersShifts) (n : nat),
      shiftPerDay self <> 0 ->
      shiftPerDay self <= length (shiftMax self) ->
      shiftPerDay self <= length (shiftMin self) ->
      d <> [] ->
      Forall (fun ws => length ws = n) (Py.values d) ->
      countWorkersPerShiftViolations self d
      = Ok (map (slot_total d) (seq 0 n), staffing_total self d n))
  /\ (forall penalty : Z,
         getWorkerShifts (__init__ penalty) all_zero
         = Ok (partition (__init__ penalty) all_zero)
         /\ countWorkersPerShiftViolations (__init__ penalty)
              (partition (__init__ penalty) all_zero)
            = Ok (repeat 0%Z 21,
                  Zsum (map (fun index =>
                               nth (index mod shiftPerDay (__init__ penalty))
                                   (shiftMin (__init__ penalty)) 0%Z)
                            (seq 0 21)))
         /\ Zsum (map (fun index =>
                         nth (index mod shiftPerDay (__init__ penalty))
                             (shiftMin (__init__ penalty)) 0%Z)
                      (seq 0 21)) = 35%Z
         /\ countConsecutiveShiftViolations
              (partition (__init__ penalty) all_zero) = 0%Z
         /\ countShiftsPerWeekViolations (__init__ penalty)
              (partition (__init__ penalty) all_zero)
            = Ok (repeat 0%Z 10, 0%Z)
         /\ countShiftPreferenceViolations (__init__ penalty)
              (partition (__init__ penalty) all_zero) = Ok 0%Z
         /\ countCompetenceViolations
              (partition (__init__ penalty) all_zero) = Ok 0%Z).
Proof.
  split.
  - intros self d n Hday Hmax Hmin Hne Hrows.
    apply countWorkersPerShiftViolations_slots; assumption.
  - intro penalty; repeat split; vm_compute; reflexivity.
Qed.

Lemma countWorkersPerShiftViolations_staffing_witness :
  countWorkersPerShiftViolations (__init__ 10)
    [("A", [1; 0; 1; 1]); ("B", [1; 1; 0; 1]); ("C", [1; 0; 0; 1]);
     ("D", [1; 0; 0; 1]); ("E", [0; 0; 0; 1])]%Z%string
  = Ok ([4; 1; 1; 5]%Z, 4%Z).
Proof.
  refine (proj1 countWorkersPerShiftViolations_staffing (__init__ 10)
            [("A", [1; 0; 1; 1]); ("B", [1; 1; 0; 1]); ("C", [1; 0; 0; 1]);
             ("D", [1; 0; 0; 1]); ("E", [0; 0; 0; 1])]%Z%string 4
            _ _ _ _ _).
  - simpl; lia.
  - simpl; lia.
  - simpl; lia.
  - discriminate.
  - repeat constructor.
Defined.

Lemma preference_rows_init (penalty : Z) (i : nat) :
  i < 10 -> length (nth i (shiftPreference (__init__ penalty)) []) = 3.
Proof.
  intro Hi; do 10 (destruct i as [|i]; [reflexivity|]); lia.
Qed.

Lemma unwanted_init (penalty : Z) (sched : schedule) (i : nat) :
  length sched = 210 ->
  i < 10 ->
  unwanted (__init__ penalty) (nth i (shiftPreference (__init__ penalty)) [])
           (shifts_of (__init__ penalty)
                      (partition (__init__ penalty) sched) i)
  = length (filter
              (fun k =>
                 (tiled_preference
                    (nth i (shiftPreference (__init__ penalty)) []) k =? 0)%Z
                 && (nth k (chunk sched 21 i) 0 =? 1)%Z)
              (seq 0 21)).
Proof.
  intros Hlen Hi.
  destruct (@shifts_of_partition (__init__ penalty) sched i
              (wc_unique (init_well_configured penalty)) Hi)
    as (w & _ & _ & Hshifts).
  rewrite Hshifts; unfold unwanted; cbv zeta.
  change (__len__ (__init__ penalty) / length (workers (__init__ penalty)))
    with 21.
  rewrite preference_rows_init by assumption.
  rewrite length_chunk by lia.
  reflexivity.
Qed.

(** C8.  With a positive number of shifts per day and a dictionary that has
    the shifts of every worker with a preference row,
    [countShiftPreferenceViolations] is the sum over these workers of the
    number of positions, among those the tiled preference and the worker's
    sequence both have, where the tiled preference is 0 and the worker has
    a 1.  With the instance of [__init__] and a schedule of 210 entries the
    tiled preference has the 21 entries of the worker's sub-sequence, one
    copy of the 3 preferences per day.  A worker with the preference
    [1, 0, 0] who works the evening of each of the 7 days, and nothing
    else, counts for 7. *)
Theorem countShiftPreferenceViolations_tiled :
  (forall (self : SchedulingProblem) (d : workersShifts),
      shiftPerDay self <> 0 ->
      (forall i, i < length (shiftPreference self) ->
                 exists w, nth_error (workers self) i = Some w
                           /\ exists ws, Py.lookup d w = Ok ws) ->
      countShiftPreferenceViolations self d = Ok (preference_total self d))
  /\ (forall (penalty : Z) (sched : schedule),
         length sched = 210 ->
         countShiftPreferenceViolations (__init__ penalty)
           (partition (__init__ penalty) sched)
         = Ok (Zsum
                 (map (fun i =>
                         Z.of_nat
                           (length
                              (filter
                                 (fun k =>
                                    (tiled_preference
                                       (nth i (shiftPreference
                                                 (__init__ penalty)) []) k
                                     =? 0)%Z
                                    && (nth k (chunk sched 21 i) 0 =? 1)%Z)
                                 (seq 0 21))))
                      (seq 0 10))))
  /\ (forall penalty : Z,
         unwanted (__init__ penalty) [1; 0; 0]%Z evenings = 7
         /\ countShiftPreferenceViolations (__init__ penalty)
              (partition (__init__ penalty) (evenings ++ repeat 0%Z 189))
            = Ok 7%Z).
Proof.
  split; [|split].
  - intros self d Hday Hkeys.
    apply countShiftPreferenceViolations_unwanted; assumption.
  - intros penalty sched Hlen.
    rewrite (@countShiftPreferenceViolations_unwanted (__init__ penalty)
               (partition (__init__ penalty) sched)
               (wc_shiftPerDay (init_well_configured penalty))
               (@partition_has_keys (__init__ penalty) sched
                  (init_well_configured penalty))).
    unfold preference_total.
    change (length (shiftPreference (__init__ penalty))) with 10.
    do 2 f_equal; apply map_ext_in; intros i Hi; apply in_seq in Hi.
    rewrite unwanted_init by (assumption || lia); reflexivity.
  - intro penalty; split; vm_compute; reflexivity.
Qed.

Lemma countShiftPreferenceViolations_tiled_witness :
  countShiftPreferenceViolations (__init__ 10)
    (partition (__init__ 10) (repeat 1%Z 210))
  = Ok (preference_total (__init__ 10)
          (partition (__init__ 10) (repeat 1%Z 210)))
  /\ preference_total (__init__ 10)
       (partition (__init__ 10) (repeat 1%Z 210)) = 98%Z.
Proof.
  split.
  - refine (proj1 countShiftPreferenceViolations_tiled (__init__ 10)
              (partition (__init__ 10) (repeat 1%Z 210)) _ _).
    + simpl; lia.
    + exact (@partition_has_keys (__init__ 10) (repeat 1%Z 210)
               (init_well_configured 10)).
  - vm_compute; reflexivity.
Defined.

(** C9.  With the instance of [__init__] and a schedule of 210 entries, the
    decomposition and the five counts are the same for every penalty, and
    the cost under the penalty [p] is [p] times the sum of the four hard
    counts plus the preference count.  So for two penalties [p1 < p2] the
    cost under [p2] is strictly above the cost under [p1] when that sum is
    positive, and the two costs are equal when it is 0. *)
Theorem getCost_monotone_in_penalty :
  forall (p1 p2 : Z) (sched : schedule),
    length sched = 210 ->
    (p1 < p2)%Z ->
    exists d weekly perWeek slots perShift pref comp,
      (forall p,
          getWorkerShifts (__init__ p) sched = Ok d
          /\ countShiftsPerWeekViolations (__init__ p) d = Ok (weekly, perWeek)
          /\ countWorkersPerShiftViolations (__init__ p) d
             = Ok (slots, perShift)
          /\ countShiftPreferenceViolations (__init__ p) d = Ok pref
          /\ countCompetenceViolations d = Ok comp
          /\ getCost (__init__ p) sched
             = Ok (p * (countConsecutiveShiftViolations d + perShift
                        + perWeek + comp) + pref)%Z)
      /\ ((0 < countConsecutiveShiftViolations d + perShift + perWeek + comp)%Z
          -> exists c1 c2,
            getCost (__init__ p1) sched = Ok c1
            /\ getCost (__init__ p2) sched = Ok c2
            /\ (c1 < c2)%Z)
      /\ ((countConsecutiveShiftViolations d + perShift + perWeek + comp = 0)%Z
          -> exists c,
            getCost (__init__ p1) sched = Ok c
            /\ getCost (__init__ p2) sched = Ok c).
Proof.
  intros p1 p2 sched Hlen Hlt.
  assert (Hall : forall p,
             getWorkerShifts (__init__ p) sched
             = Ok (partition (__init__ p1) sched)
             /\ countShiftsPerWeekViolations (__init__ p)
                  (partition (__init__ p1) sched)
                = Ok (weekly_totals (__init__ p1)
                        (partition (__init__ p1) sched),
                      weekly_excess (__init__ p1)
                        (partition (__init__ p1) sched))
             /\ countWorkersPerShiftViolations (__init__ p)
                  (partition (__init__ p1) sched)
                = Ok (map (slot_total (partition (__init__ p1) sched))
                          (seq 0 21),
                      staffing_total (__init__ p1)
                        (partition (__init__ p1) sched) 21)
             /\ countShiftPreferenceViolations (__init__ p)
                  (partition (__init__ p1) sched)
                = Ok (preference_total (__init__ p1)
                        (partition (__init__ p1) sched))
             /\ countCompetenceViolations (partition (__init__ p1) sched)
                = Ok (competence_total (partition (__init__ p1) sched))
             /\ getCost (__init__ p) sched
                = Ok (p * (countConsecutiveShiftViolations
                             (partition (__init__ p1) sched)
                           + staffing_total (__init__ p1)
                               (partition (__init__ p1) sched) 21
                           + weekly_excess (__init__ p1)
                               (partition (__init__ p1) sched)
                           + competence_total
                               (partition (__init__ p1) sched))
                      + preference_total (__init__ p1)
                          (partition (__init__ p1) sched))%Z).
  { intro p.
    exact (@getCost_steps (__init__ p) sched (init_well_configured p) Hlen). }
  exists (partition (__init__ p1) sched).
  do 6 eexists.
  split; [exact Hall | split].
  - intro Hhard.
    destruct (Hall p1) as (_ & _ & _ & _ & _ & H1).
    destruct (Hall p2) as (_ & _ & _ & _ & _ & H2).
    do 2 eexists; split; [exact H1 | split; [exact H2 | nia]].
  - intro Hhard.
    destruct (Hall p1) as (_ & _ & _ & _ & _ & H1).
    destruct (Hall p2) as (_ & _ & _ & _ & _ & H2).
    rewrite H1, H2, Hhard.
    eexists; split; [reflexivity | f_equal; lia].
Qed.

Lemma getCost_monotone_in_penalty_witness :
  exists d weekly perWeek slots perShift pref comp,
    (forall p,
        getWorkerShifts (__init__ p) (repeat 1%Z 210) = Ok d
        /\ countShiftsPerWeekViolations (__init__ p) d = Ok (weekly, perWeek)
        /\ countWorkersPerShiftViolations (__init__ p) d
           = Ok (slots, perShift)
        /\ countShiftPreferenceViolations (__init__ p) d = Ok pref
        /\ countCompetenceViolations d = Ok comp
        /\ getCost (__init__ p) (repeat 1%Z 210)
           = Ok (p * (countConsecutiveShiftViolations d + perShift
                      + perWeek + comp) + pref)%Z)
    /\ ((0 < countConsecutiveShiftViolations d + perShift + perWeek + comp)%Z
        -> exists c1 c2,
          getCost (__init__ 1) (repeat 1%Z 210) = Ok c1
          /\ getCost (__init__ 10) (repeat 1%Z 210) = Ok c2
          /\ (c1 < c2)%Z)
    /\ ((countConsecutiveShiftViolations d + perShift + perWeek + comp = 0)%Z
        -> exists c,
          getCost (__init__ 1) (repeat 1%Z 210) = Ok c
          /\ getCost (__init__ 10) (repeat 1%Z 210) = Ok c).
Proof.
  apply getCost_monotone_in_penalty; [reflexivity | lia].
Defined.

(** C10.  On a well-configured instance and a schedule of exactly
    [__len__] entries, binary or not, each of the five counters returns an
    integer that is not negative, and with a penalty that is not negative
    [getCost] returns a cost that is not negative. *)
Theorem counters_nonnegative :
  forall (self : SchedulingProblem) (sched : schedule),
    well_configured self ->
    length sched = __len__ self ->
    exists d weekly perWeek slots perShift pref comp,
      getWorkerShifts self sched = Ok d
      /\ (0 <= countConsecutiveShiftViolations d)%Z
      /\ countShiftsPerWeekViolations self d = Ok (weekly, perWeek)
      /\ (0 <= perWeek)%Z
      /\ countWorkersPerShiftViolations self d = Ok (slots, perShift)
      /\ (0 <= perShift)%Z
      /\ countShiftPreferenceViolations self d = Ok pref
      /\ (0 <= pref)%Z
      /\ countCompetenceViolations d = Ok comp
      /\ (0 <= comp)%Z
      /\ ((0 <= hardConstraintPenalty self)%Z ->
          exists cost, getCost self sched = Ok cost /\ (0 <= cost)%Z).
Proof.
  intros self sched Hwc Hlen.
  destruct (@getCost_steps self sched Hwc Hlen)
    as (Hd & Hweek & Hslots & Hpref & Hcomp & Hcost).
  pose proof (countConsecutiveShiftViolations_nonneg (partition self sched)).
  pose proof (weekly_excess_nonneg self (partition self sched)).
  pose proof (staffing_total_nonneg self (partition self sched)
                (__len__ self / length (workers self))).
  pose proof (preference_total_nonneg self (partition self sched)).
  pose proof (competence_total_nonneg (partition self sched)).
  exists (partition self sched).
  do 6 eexists.
  repeat (split; [eassumption|]).
  intro Hpenalty; eexists; split; [exact Hcost | nia].
Qed.

Lemma counters_nonnegative_witness :
  exists d weekly perWeek slots perShift pref comp,
    getWorkerShifts (__init__ 10) (repeat 1%Z 210) = Ok d
    /\ (0 <= countConsecutiveShiftViolations d)%Z
    /\ countShiftsPerWeekViolations (__init__ 10) d = Ok (weekly, perWeek)
    /\ (0 <= perWeek)%Z
    /\ countWorkersPerShiftViolations (__init__ 10) d = Ok (slots, perShift)
    /\ (0 <= perShift)%Z
    /\ countShiftPreferenceViolations (__init__ 10) d = Ok pref
    /\ (0 <= pref)%Z
    /\ countCompetenceViolations d = Ok comp
    /\ (0 <= comp)%Z
    /\ ((0 <= hardConstraintPenalty (__init__ 10))%Z ->
        exists cost,
          getCost (__init__ 10) (repeat 1%Z 210) = Ok cost /\ (0 <= cost)%Z).
Proof.
  apply counters_nonnegative; [apply init_well_configured | reflexivity].
Defined.

(** ** The theorems above at concrete schedules *)

Lemma getWorkerShifts_chunks_witness :
  getWorkerShifts (__init__ 10) (evenings ++ repeat 0%Z 189)
  = Ok (partition (__init__ 10) (evenings ++ repeat 0%Z 189))
  /\ Py.keys (partition (__init__ 10) (evenings ++ repeat 0%Z 189))
     = workers (__init__ 10)
  /\ (length (evenings ++ repeat 0%Z 189) = __len__ (__init__ 10) ->
      concat (Py.values (partition (__init__ 10)
                           (evenings ++ repeat 0%Z 189)))
      = evenings ++ repeat 0%Z 189
      /\ Forall (fun ws => length ws
                           = __len__ (__init__ 10)
                             / length (workers (__init__ 10)))
                (Py.values (partition (__init__ 10)
                              (evenings ++ repeat 0%Z 189)))).
Proof.
  apply getWorkerShifts_chunks.
  - discriminate.
  - exact (wc_unique (init_well_configured 10)).
Defined.

Lemma countShiftsPerWeekViolations_excess_witness :
  countShiftsPerWeekViolations (__init__ 10)
    [("A", evenings); ("B", repeat 1%Z 21); ("C", repeat 0%Z 21)]%string
  = Ok ([7; 21; 0]%Z, 18%Z)
  /\ excess (__init__ 10) 7 = 2%Z
  /\ excess (__init__ 10) 5 = 0%Z.
Proof.
  assert (Hstep : shiftsPerWeek (__init__ 10) <> 0) by discriminate.
  destruct (countShiftsPerWeekViolations_excess (__init__ 10)
              [("A", evenings); ("B", repeat 1%Z 21);
               ("C", repeat 0%Z 21)]%string Hstep)
    as (Hcount & Hover & Hunder).
  split; [exact Hcount | split].
  - exact (Hover 7%Z ltac:(simpl; lia)).
  - exact (Hunder 5%Z ltac:(simpl; lia)).
Defined.

Lemma countCompetenceViolations_night_window_witness :
  countCompetenceViolations
    (partition (__init__ 10) (repeat 1%Z 210)) = Ok 35%Z
  /\ competence_of 4 (Py.list_mul [0; 0; 1]%Z 7) = 0%Z
  /\ competence_of 5 (Py.list_mul [0; 0; 1]%Z 7) = 7%Z.
Proof.
  destruct countCompetenceViolations_night_window
    as (Htotal & Hlow & Hhigh).
  split; [exact (Htotal (partition (__init__ 10) (repeat 1%Z 210)))|].
  split; [apply Hlow; lia|].
  apply Hhigh; [lia | |].
  - intros day Hday.
    do 7 (destruct day as [|day]; [reflexivity|]); lia.
  - intros k [<- | [<- | [<- | []]]]; discriminate.
Defined.

(** Adjacency is positional: the night of one day followed by the morning
    of the next (positions 2 and 3) and the last shift of a week followed
    by the first of the next (positions 20 and 21) count like the morning
    followed by the evening of one day (positions 0 and 1). *)
Example consecutive_across_boundaries :
  countConsecutiveShiftViolations
    [("A", [1; 1; 0; 0; 0; 0])]%Z%string = 1%Z
  /\ countConsecutiveShiftViolations
       [("A", [0; 0; 1; 1; 0; 0])]%Z%string = 1%Z
  /\ countConsecutiveShiftViolations
       [("A"%string, (repeat 0%Z 20 ++ [1; 1]%Z ++ repeat 0%Z 20)%list)]
     = 1%Z.
Proof. repeat split. Qed.

(** The excess is counted, not the offending week: 7 shifts in a week with
    a limit of 5 are 2 violations. *)
Example seven_shifts_in_a_week :
  countShiftsPerWeekViolations (__init__ 10) [("A", evenings)]%string
  = Ok ([7]%Z, 2%Z).
Proof. reflexivity. Qed.

(** ** The report of [printScheduleInfo] *)

Lemma lookup_app_fresh {V : Type} (pre suf : Py.dict V) (k : string) :
  ~ In k (Py.keys pre) -> Py.lookup (pre ++ suf) k = Py.lookup suf k.
Proof.
  induction pre as [|[k' v'] pre IH]; intro Hk; simpl; [reflexivity|].
  simpl in Hk.
  destruct (String.eqb_spec k' k) as [-> | _]; [tauto|].
  apply IH; tauto.
Qed.

Lemma call_ok {A B : Type} (a : A) (k : A -> io B) :
  io_bind (call (Ok a)) k = k a.
Proof. unfold call, io_bind; destruct (k a); reflexivity. Qed.

Lemma print_workers (d pre suf : workersShifts) :
  d = pre ++ suf ->
  NoDup (Py.keys d) ->
  for_each
    (fun worker =>
       shifts <~ call (Py.lookup d worker) ;;
       print [PText worker; PText ":"; PSeq shifts])
    (Py.keys suf)
  = (map worker_line suf, Ok tt).
Proof.
  name_for body.
  revert pre; induction suf as [|[k v] suf IH]; intros pre Hd Hnodup.
  - reflexivity.
  - assert (Hk : ~ In k (Py.keys pre)).
    { rewrite Hd, keys_app in Hnodup; simpl in Hnodup.
      apply NoDup_remove_2 in Hnodup.
      intro Hin; apply Hnodup, in_or_app; left; assumption. }
    assert (Hlook : Py.lookup d k = Ok v).
    { rewrite Hd, (@lookup_app_fresh _ pre ((k, v) :: suf) k Hk); simpl.
      rewrite String.eqb_refl; reflexivity. }
    change (for_each body (Py.keys ((k, v) :: suf)))
      with (io_bind (body k) (fun _ => for_each body (Py.keys suf))).
    rewrite (IH (pre ++ [(k, v)]));
      [| rewrite <- app_assoc; exact Hd | assumption].
    unfold body; rewrite Hlook; reflexivity.
Qed.

Lemma printScheduleInfo_steps (self : SchedulingProblem) (sched : schedule)
  (d : workersShifts) (weekly slots : list Z) (perWeek perShift pref comp : Z) :
  getWorkerShifts self sched = Ok d ->
  NoDup (Py.keys d) ->
  countShiftsPerWeekViolations self d = Ok (weekly, perWeek) ->
  countWorkersPerShiftViolations self d = Ok (slots, perShift) ->
  countShiftPreferenceViolations self d = Ok pref ->
  countCompetenceViolations d = Ok comp ->
  printScheduleInfo self sched
  = ([PText "Schedule for each worker:"]
       :: map worker_line d
       ++ report_lines (countConsecutiveShiftViolations d) weekly perWeek
            slots perShift pref comp,
     Ok tt).
Proof.
  intros Hd Hnodup Hweek Hslots Hpref Hcomp.
  unfold printScheduleInfo.
  rewrite Hd, call_ok; cbv beta.
  rewrite Hweek, Hslots, Hpref, Hcomp.
  rewrite (@print_workers d [] d eq_refl Hnodup).
  reflexivity.
Qed.

(** ** Bounds on binary schedules *)

Lemma binary_firstn (l : list Z) (n : nat) : binary l -> binary (firstn n l).
Proof.
  unfold binary; intro H; revert n.
  induction H as [|x l Hx _ IH]; intros [|n]; simpl; constructor;
    [assumption | apply IH].
Qed.

Lemma binary_skipn (l : list Z) (n : nat) : binary l -> binary (skipn n l).
Proof.
  unfold binary; intro H; revert n.
  induction H as [|x l Hx Hl IH]; intros [|n]; simpl.
  - constructor.
  - constructor.
  - constructor; assumption.
  - apply IH.
Qed.

Lemma binary_chunk (sched : schedule) (size i : nat) :
  binary sched -> binary (chunk sched size i).
Proof. intro H; apply binary_firstn, binary_skipn, H. Qed.

Lemma binary_nth (l : list Z) (k : nat) :
  binary l -> (0 <= nth k l 0 <= 1)%Z.
Proof.
  intro H; destruct (Nat.lt_ge_cases k (length l)) as [Hlt | Hge].
  - destruct (proj1 (Forall_nth _ l) H k 0%Z Hlt) as [-> | ->]; lia.
  - rewrite nth_overflow by assumption; lia.
Qed.

Lemma Zsum_map_le {A : Type} (f g : A -> Z) (l : list A) :
  (forall x, In x l -> f x <= g x)%Z ->
  (Zsum (map f l) <= Zsum (map g l))%Z.
Proof.
  induction l as [|x l IH]; intro H; simpl; [lia|].
  pose proof (H x (or_introl eq_refl)).
  assert (Zsum (map f l) <= Zsum (map g l))%Z
    by (apply IH; intros; apply H; simpl; auto).
  lia.
Qed.

Lemma Zsum_map_const {A : Type} (c : Z) (l : list A) :
  Zsum (map (fun _ => c) l) = (c * Z.of_nat (length l))%Z.
Proof. induction l as [|x l IH]; simpl length; simpl; [lia | rewrite IH; lia]. Qed.

Lemma Zsum_binary_window (ws : list Z) (start n : nat) :
  binary ws ->
  (0 <= Zsum (map (fun k => nth (start + k) ws 0) (seq 0 n)) <= Z.of_nat n)%Z.
Proof.
  intro H; split.
  - apply Zsum_map_nonneg; intro k; apply (binary_nth (start + k) H).
  - transitivity (Zsum (map (fun _ : nat => 1%Z) (seq 0 n))).
    + apply Zsum_map_le; intros k _; apply (binary_nth (start + k) H).
    + rewrite Zsum_map_const, length_seq; lia.
Qed.

Lemma filter_and_le {A : Type} (f g : A -> bool) (l : list A) :
  length (filter (fun x => f x && g x) l) <= length (filter f l).
Proof.
  induction l as [|x l IH]; simpl; [lia|].
  destruct (f x), (g x); simpl; lia.
Qed.

Lemma fst_combine_seq {B : Type} (l : list B) (start : nat) :
  map fst (combine (seq start (length l)) l) = seq start (length l).
Proof.
  revert start; induction l as [|x l IH]; intro start; simpl;
    [reflexivity | rewrite IH; reflexivity].
Qed.

Lemma adjacent_pairs_le (ws : list Z) : adjacent_pairs ws <= length ws - 1.
Proof.
  unfold adjacent_pairs.
  pose proof (filter_length_le (both_scheduled ws) (seq 0 (length ws - 1)))
    as H.
  rewrite length_seq in H; exact H.
Qed.

Lemma night_count_le (ws : list Z) : night_count ws <= 10.
Proof. apply (filter_length_le (scheduled_at ws) night_window). Qed.

Lemma night_count_week (ws : list Z) : length ws <= 21 -> night_count ws <= 7.
Proof.
  intro Hlen; unfold night_count.
  change night_window with ([2; 5; 8; 11; 14; 17; 20] ++ [23; 26; 29]).
  rewrite filter_app, length_app.
  pose proof (filter_length_le (scheduled_at ws) [2; 5; 8; 11; 14; 17; 20]) as H.
  assert (Hoff : filter (scheduled_at ws) [23; 26; 29] = []).
  { cbn [filter].
    rewrite !scheduled_at_false
      by (rewrite (proj2 (nth_error_None ws _)) by lia; discriminate).
    reflexivity. }
  rewrite Hoff; simpl length in *; lia.
Qed.

Lemma Zsum_flat_map_singleton {A : Type} (f : A -> Z) (g : Z -> Z)
  (l : list A) :
  Zsum (map g (flat_map (fun x => [f x]) l)) = Zsum (map (fun x => g (f x)) l).
Proof.
  induction l as [|x l IH]; simpl; [reflexivity | rewrite IH; reflexivity].
Qed.

Section BinaryRoster.

Variable penalty : Z.
Variable sched : schedule.
Hypothesis Hlen : length sched = 210.
Hypothesis Hbin : binary sched.

Lemma roster_rows :
  Py.values (partition (__init__ penalty) sched)
  = map (chunk sched 21) (seq 0 10).
Proof. apply (partition_values (__init__ penalty) sched). Qed.

Lemma roster_row_facts (ws : list Z) :
  In ws (Py.values (partition (__init__ penalty) sched)) ->
  length ws = 21 /\ binary ws.
Proof.
  rewrite roster_rows; intro Hin; apply in_map_iff in Hin.
  destruct Hin as (i & <- & Hi); apply in_seq in Hi; split.
  - apply length_chunk; lia.
  - apply binary_chunk; assumption.
Qed.

Lemma roster_count :
  length (Py.values (partition (__init__ penalty) sched)) = 10.
Proof. rewrite roster_rows, length_map, length_seq; reflexivity. Qed.

Lemma roster_consecutive_le :
  (countConsecutiveShiftViolations (partition (__init__ penalty) sched)
   <= 200)%Z.
Proof.
  unfold countConsecutiveShiftViolations; rewrite consecutive_workers.
  rewrite Z.add_0_l.
  transitivity (Zsum (map (fun _ : list Z => 20%Z)
                          (Py.values (partition (__init__ penalty) sched)))).
  - apply Zsum_map_le; intros ws Hin.
    destruct (@roster_row_facts ws Hin) as [Hrow _].
    pose proof (adjacent_pairs_le ws); lia.
  - rewrite Zsum_map_const, roster_count; lia.
Qed.

Lemma roster_weekly_le :
  (weekly_excess (__init__ penalty) (partition (__init__ penalty) sched)
   <= 160)%Z.
Proof.
  unfold weekly_excess, weekly_totals.
  change (seq 0 (weeks (__init__ penalty))) with [0].
  change (fun ws : list Z => map (week_total (__init__ penalty) ws) [0])
    with (fun ws : list Z => [week_total (__init__ penalty) ws 0]).
  rewrite Zsum_flat_map_singleton.
  transitivity (Zsum (map (fun _ : list Z => 16%Z)
                          (Py.values (partition (__init__ penalty) sched)))).
  - apply Zsum_map_le; intros ws Hin.
    destruct (@roster_row_facts ws Hin) as [_ Hrow].
    pose proof (Zsum_binary_window 0 21 Hrow) as Hwin.
    unfold excess, week_total.
    change (shiftsPerWeek (__init__ penalty)) with 21.
    change (maxShiftsPerWeek (__init__ penalty)) with 5%Z.
    change (0 * 21) with 0.
    destruct (Z.gtb_spec
                (Zsum (map (fun k => nth (0 + k) ws 0%Z) (seq 0 21))) 5); lia.
  - rewrite Zsum_map_const, roster_count; lia.
Qed.

Lemma roster_slot_total (j : nat) :
  (0 <= slot_total (partition (__init__ penalty) sched) j <= 10)%Z.
Proof.
  unfold slot_total; split.
  - apply Zsum_nonneg, Forall_map, Forall_forall; intros ws Hin.
    destruct (@roster_row_facts ws Hin) as [_ Hrow].
    apply (binary_nth j Hrow).
  - transitivity (Zsum (map (fun _ : list Z => 1%Z)
                            (Py.values (partition (__init__ penalty) sched)))).
    + apply Zsum_map_le; intros ws Hin.
      destruct (@roster_row_facts ws Hin) as [_ Hrow].
      apply (binary_nth j Hrow).
    + rewrite Zsum_map_const, roster_count; lia.
Qed.

Lemma roster_staffing_le :
  (staffing_total (__init__ penalty) (partition (__init__ penalty) sched) 21
   <= 147)%Z.
Proof.
  unfold staffing_total.
  transitivity (Zsum (map (fun j => nth (j mod 3) [7; 6; 8] 0)%Z (seq 0 21)));
    [| vm_compute; discriminate].
  apply Zsum_map_le; intros j _.
  pose proof (roster_slot_total j) as Hslot.
  unfold staffing_penalty; cbv zeta.
  change (shiftPerDay (__init__ penalty)) with 3.
  change (shiftMax (__init__ penalty)) with [3; 4; 2]%Z.
  change (shiftMin (__init__ penalty)) with [2; 2; 1]%Z.
  pose proof (Nat.mod_upper_bound j 3 ltac:(lia)) as Htype.
  destruct (j mod 3) as [|[|[|t]]]; [| | | lia]; cbn [nth];
    match goal with
    | |- context [(?a >? ?b)%Z] => destruct (Z.gtb_spec a b)
    end; try lia;
    match goal with
    | |- context [(?a <? ?b)%Z] => destruct (Z.ltb_spec a b)
    end; lia.
Qed.

Lemma roster_preference_le :
  (preference_total (__init__ penalty) (partition (__init__ penalty) sched)
   <= 98)%Z.
Proof.
  unfold preference_total.
  change (length (shiftPreference (__init__ penalty))) with 10.
  transitivity
    (Zsum (map (fun i =>
                  Z.of_nat
                    (length
                       (filter
                          (fun k =>
                             (tiled_preference
                                (nth i (shiftPreference (__init__ penalty))
                                     []) k =? 0)%Z)
                          (seq 0 21))))
               (seq 0 10))); [| vm_compute; discriminate].
  apply Zsum_map_le; intros i Hi; apply in_seq in Hi.
  rewrite unwanted_init by (assumption || lia).
  apply inj_le, filter_and_le.
Qed.

Lemma roster_competence_le :
  (competence_total (partition (__init__ penalty) sched) <= 35)%Z.
Proof.
  unfold competence_total, Py.enumerate.
  transitivity
    (Zsum (map (fun iw : nat * list Z => if 5 <=? fst iw then 7%Z else 0%Z)
               (combine
                  (seq 0 (length
                            (Py.values (partition (__init__ penalty) sched))))
                  (Py.values (partition (__init__ penalty) sched))))).
  - apply Zsum_map_le; intros [i ws] Hin; apply in_combine_r in Hin.
    destruct (@roster_row_facts ws Hin) as [Hrow _].
    unfold competence_of; cbn [fst snd].
    pose proof (@night_count_week ws ltac:(lia)).
    destruct (5 <=? i); lia.
  - rewrite <- (map_map fst (fun i => if 5 <=? i then 7%Z else 0%Z)).
    rewrite fst_combine_seq, roster_count; vm_compute; discriminate.
Qed.

End BinaryRoster.

(** ** Further properties of the class *)

Lemma partition_unique_keys (self : SchedulingProblem) (sched : schedule) :
  NoDup (workers self) -> NoDup (Py.keys (partition self sched)).
Proof. intro H; rewrite partition_keys; exact H. Qed.

Lemma report_any_length (self : SchedulingProblem) (sched : schedule) :
  well_configured self ->
  exists slots perShift,
    countWorkersPerShiftViolations self (partition self sched)
    = Ok (slots, perShift)
    /\ printScheduleInfo self sched
       = ([PText "Schedule for each worker:"]
            :: map worker_line (partition self sched)
            ++ report_lines
                 (countConsecutiveShiftViolations (partition self sched))
                 (weekly_totals self (partition self sched))
                 (weekly_excess self (partition self sched))
                 slots perShift
                 (preference_total self (partition self sched))
                 (competence_total (partition self sched)),
          Ok tt).
Proof.
  intro Hwc.
  pose proof (@countWorkersPerShiftViolations_total self
                (wc_shiftPerDay Hwc) (wc_shiftMax Hwc) (wc_shiftMin Hwc)
                (partition self sched)) as Hslots.
  do 2 eexists; split; [exact Hslots|].
  apply printScheduleInfo_steps.
  - apply getWorkerShifts_partition; [apply Hwc | apply Hwc].
  - apply partition_unique_keys, Hwc.
  - apply countShiftsPerWeekViolations_total, Hwc.
  - exact Hslots.
  - apply countShiftPreferenceViolations_unwanted;
      [apply Hwc | apply partition_has_keys, Hwc].
  - apply countCompetenceViolations_total.
Qed.

(** X1.  [printScheduleInfo] checks no length: on a well-configured
    instance it returns normally for a schedule of any length, having
    printed the heading, one line per worker with the worker's slice of the
    schedule, and the twelve lines of the counts; for a length other than
    [__len__] this is a schedule on which [getCost] raises. *)
Theorem printScheduleInfo_no_size_check :
  forall (self : SchedulingProblem) (sched : schedule),
    well_configured self ->
    exists weekly perWeek slots perShift pref comp,
      printScheduleInfo self sched
      = ([PText "Schedule for each worker:"]
           :: map worker_line (partition self sched)
           ++ report_lines
                (countConsecutiveShiftViolations (partition self sched))
                weekly perWeek slots perShift pref comp,
         Ok tt)
      /\ length (fst (printScheduleInfo self sched))
         = length (workers self) + 13
      /\ (length sched <> __len__ self ->
          exists e, getCost self sched = Raise e).
Proof.
  intros self sched Hwc.
  destruct (@report_any_length self sched Hwc)
    as (slots & perShift & _ & Hprint).
  do 6 eexists; split; [exact Hprint | split].
  - rewrite Hprint; cbn [fst length].
    rewrite length_app, length_map.
    unfold partition.
    rewrite length_combine, length_map, length_seq, Nat.min_id.
    simpl; lia.
  - intro Hlen; eexists; apply size_mismatch; assumption.
Qed.

Lemma printScheduleInfo_no_size_check_witness :
  exists weekly perWeek slots perShift pref comp,
    printScheduleInfo (__init__ 10) [1; 1; 1]%Z
    = ([PText "Schedule for each worker:"]
         :: map worker_line (partition (__init__ 10) [1; 1; 1]%Z)
         ++ report_lines
              (countConsecutiveShiftViolations
                 (partition (__init__ 10) [1; 1; 1]%Z))
              weekly perWeek slots perShift pref comp,
       Ok tt)
    /\ length (fst (printScheduleInfo (__init__ 10) [1; 1; 1]%Z))
       = length (workers (__init__ 10)) + 13
    /\ (length [1; 1; 1]%Z <> __len__ (__init__ 10) ->
        exists e, getCost (__init__ 10) [1; 1; 1]%Z = Raise e).
Proof.
  apply printScheduleInfo_no_size_check, init_well_configured.
Defined.

(** X2.  On a well-configured instance and a schedule of [__len__]
    entries, the cost that [getCost] returns is the penalty times the sum
    of the four hard counts that [printScheduleInfo] prints, plus the
    preference count it prints, and the slices printed for the workers,
    joined in order, are the schedule. *)
Theorem printScheduleInfo_agrees_with_getCost :
  forall (self : SchedulingProblem) (sched : schedule),
    well_configured self ->
    length sched = __len__ self ->
    exists d consecutive weekly perWeek slots perShift pref comp,
      printScheduleInfo self sched
      = ([PText "Schedule for each worker:"]
           :: map worker_line d
           ++ report_lines consecutive weekly perWeek slots perShift pref
                comp,
         Ok tt)
      /\ concat (map snd d) = sched
      /\ getCost self sched
         = Ok (hardConstraintPenalty self
               * (consecutive + perShift + perWeek + comp) + pref)%Z.
Proof.
  intros self sched Hwc Hlen.
  destruct (@getCost_steps self sched Hwc Hlen)
    as (Hd & Hweek & Hslots & Hpref & Hcomp & Hcost).
  exists (partition self sched).
  do 7 eexists; split; [|split].
  - apply printScheduleInfo_steps; try eassumption.
    apply partition_unique_keys, Hwc.
  - change (map snd (partition self sched))
      with (Py.values (partition self sched)).
    rewrite partition_values, concat_chunks,
      (@len_per_worker self (wc_workers Hwc)), <- Hlen.
    apply firstn_all.
  - exact Hcost.
Qed.

Lemma printScheduleInfo_agrees_with_getCost_witness :
  exists d consecutive weekly perWeek slots perShift pref comp,
    printScheduleInfo (__init__ 10) (repeat 1%Z 210)
    = ([PText "Schedule for each worker:"]
         :: map worker_line d
         ++ report_lines consecutive weekly perWeek slots perShift pref comp,
       Ok tt)
    /\ concat (map snd d) = repeat 1%Z 210
    /\ getCost (__init__ 10) (repeat 1%Z 210)
       = Ok (hardConstraintPenalty (__init__ 10)
             * (consecutive + perShift + perWeek + comp) + pref)%Z.
Proof.
  apply printScheduleInfo_agrees_with_getCost;
    [apply init_well_configured | reflexivity].
Defined.

Lemma all_ones_cost (penalty : Z) :
  getCost (__init__ penalty) (repeat 1%Z 210)
  = Ok (penalty * 542 + 98)%Z.
Proof.
  destruct (@getCost_steps (__init__ penalty) (repeat 1%Z 210)
              (init_well_configured penalty) eq_refl)
    as (_ & _ & _ & _ & _ & Hcost).
  rewrite Hcost; repeat f_equal.
Qed.

Lemma binary_cost_bounds (penalty : Z) (sched : schedule) :
  (0 <= penalty)%Z ->
  length sched = 210 ->
  binary sched ->
  exists cost,
    getCost (__init__ penalty) sched = Ok cost
    /\ (0 <= cost <= penalty * 542 + 98)%Z.
Proof.
  intros Hp Hlen Hbin.
  destruct (@getCost_steps (__init__ penalty) sched
              (init_well_configured penalty) Hlen)
    as (_ & _ & _ & _ & _ & Hcost).
  eexists; split; [exact Hcost|].
  change (__len__ (__init__ penalty) / length (workers (__init__ penalty)))
    with 21.
  change (hardConstraintPenalty (__init__ penalty)) with penalty.
  pose proof (@roster_consecutive_le penalty sched Hlen Hbin).
  pose proof (@roster_weekly_le penalty sched Hlen Hbin).
  pose proof (@roster_staffing_le penalty sched Hlen Hbin).
  pose proof (@roster_preference_le penalty sched Hlen).
  pose proof (@roster_competence_le penalty sched Hlen Hbin).
  pose proof (countConsecutiveShiftViolations_nonneg
                (partition (__init__ penalty) sched)).
  pose proof (weekly_excess_nonneg (__init__ penalty)
                (partition (__init__ penalty) sched)).
  pose proof (staffing_total_nonneg (__init__ penalty)
                (partition (__init__ penalty) sched) 21).
  pose proof (preference_total_nonneg (__init__ penalty)
                (partition (__init__ penalty) sched)).
  pose proof (competence_total_nonneg (partition (__init__ penalty) sched)).
  nia.
Qed.

(** X3.  With the instance of [__init__] and a penalty that is not
    negative, no binary schedule of 210 entries costs more than the
    schedule in which everybody works every shift, whose cost is 542 times
    the penalty plus 98; and no cost is negative. *)
Theorem getCost_at_most_all_ones :
  forall (penalty : Z) (sched : schedule),
    (0 <= penalty)%Z ->
    length sched = 210 ->
    binary sched ->
    exists cost worst,
      getCost (__init__ penalty) sched = Ok cost
      /\ getCost (__init__ penalty) (repeat 1%Z 210) = Ok worst
      /\ worst = (penalty * 542 + 98)%Z
      /\ (0 <= cost <= worst)%Z.
Proof.
  intros penalty sched Hp Hlen Hbin.
  destruct (binary_cost_bounds Hp Hlen Hbin) as (cost & Hcost & Hbound).
  exists cost, (penalty * 542 + 98)%Z.
  split; [exact Hcost | split; [apply all_ones_cost | split; [reflexivity|]]].
  exact Hbound.
Qed.

Lemma binary_list_mul (l : list Z) (n : nat) :
  binary l -> binary (Py.list_mul l n).
Proof.
  unfold binary; intro H; induction n as [|n IH]; simpl.
  - constructor.
  - apply Forall_app; split; assumption.
Qed.

Lemma binary_alternating : binary (Py.list_mul [1; 0]%Z 105).
Proof.
  apply binary_list_mul; unfold binary.
  constructor; [right; reflexivity|].
  constructor; [left; reflexivity | constructor].
Qed.

Lemma getCost_at_most_all_ones_witness :
  exists cost worst,
    getCost (__init__ 10) (Py.list_mul [1; 0]%Z 105) = Ok cost
    /\ getCost (__init__ 10) (repeat 1%Z 210) = Ok worst
    /\ worst = (10 * 542 + 98)%Z
    /\ (0 <= cost <= worst)%Z.
Proof.
  apply getCost_at_most_all_ones;
    [lia | reflexivity | exact binary_alternating].
Defined.

(** X4.  [main], for any draw of 210 entries that are 0 or 1, returns
    normally: it prints the three lines of the draw, the 23 lines of
    [printScheduleInfo] and a last line with the cost of the draw under the
    penalty 10, which lies between 0 and 5518. *)
Theorem main_prints_cost :
  forall randomSolution : schedule,
    length randomSolution = 210 ->
    binary randomSolution ->
    exists report cost,
      main randomSolution
      = ([PText "Random Solution = "] :: [PSeq randomSolution] :: []
           :: report ++ [[PText "Total Cost = "; PNum cost]],
         Ok tt)
      /\ printScheduleInfo (__init__ 10) randomSolution = (report, Ok tt)
      /\ length report = 23
      /\ getCost (__init__ 10) randomSolution = Ok cost
      /\ (0 <= cost <= 5518)%Z.
Proof.
  intros sample Hlen Hbin.
  destruct (@binary_cost_bounds 10%Z sample ltac:(lia) Hlen Hbin)
    as (cost & Hcost & Hbound).
  destruct (@report_any_length (__init__ 10) sample (init_well_configured 10))
    as (slots & perShift & _ & Hprint).
  eexists; exists cost.
  split; [| split; [exact Hprint | split; [| split; [exact Hcost | lia]]]].
  - unfold main; cbv zeta.
    rewrite Hprint, Hcost; reflexivity.
  - cbn [length]; rewrite length_app, length_map.
    unfold partition.
    rewrite length_combine, length_map, length_seq, Nat.min_id.
    reflexivity.
Qed.

Lemma main_prints_cost_witness :
  exists report cost,
    main (Py.list_mul [1; 0]%Z 105)
    = ([PText "Random Solution = "] :: [PSeq (Py.list_mul [1; 0]%Z 105)] :: []
         :: report ++ [[PText "Total Cost = "; PNum cost]],
       Ok tt)
    /\ printScheduleInfo (__init__ 10) (Py.list_mul [1; 0]%Z 105)
       = (report, Ok tt)
    /\ length report = 23
    /\ getCost (__init__ 10) (Py.list_mul [1; 0]%Z 105) = Ok cost
    /\ (0 <= cost <= 5518)%Z.
Proof.
  apply main_prints_cost; [reflexivity | exact binary_alternating].
Defined.

(** X5.  With at least one worker and distinct names, the slices that
    [getWorkerShifts] returns, joined in the order of the workers, are the
    first [__len__] entries of the schedule: entries past [__len__] are
    dropped without an error, and a schedule that is too short is kept
    whole, the last slices being short or empty. *)
Theorem getWorkerShifts_truncates :
  forall (self : SchedulingProblem) (sched : schedule),
    workers self <> [] ->
    NoDup (workers self) ->
    exists d,
      getWorkerShifts self sched = Ok d
      /\ concat (Py.values d) = firstn (__len__ self) sched
      /\ length (concat (Py.values d))
         = Nat.min (__len__ self) (length sched).
Proof.
  intros self sched Hne Hnodup.
  exists (partition self sched).
  assert (Hcat : concat (Py.values (partition self sched))
                 = firstn (__len__ self) sched)
    by (rewrite partition_values, concat_chunks,
          (@len_per_worker self Hne); reflexivity).
  split; [apply getWorkerShifts_partition; assumption | split].
  - exact Hcat.
  - rewrite Hcat; apply length_firstn.
Qed.

Lemma getWorkerShifts_truncates_witness :
  exists d,
    getWorkerShifts (__init__ 10) (repeat 1%Z 215) = Ok d
    /\ concat (Py.values d) = firstn (__len__ (__init__ 10)) (repeat 1%Z 215)
    /\ length (concat (Py.values d))
       = Nat.min (__len__ (__init__ 10)) (length (repeat 1%Z 215)).
Proof.
  apply getWorkerShifts_truncates.
  - discriminate.
  - exact (wc_unique (init_well_configured 10)).
Defined.

Lemma Zsum_competence_cap (n : nat) :
  Zsum (map (fun i => if 5 <=? i then 10%Z else 0%Z) (seq 0 n))
  = (10 * Z.of_nat (n - 5))%Z.
Proof.
  induction n as [|n IH]; [reflexivity|].
  rewrite seq_S, map_app, Zsum_app, IH, Nat.add_0_l.
  cbn [map Zsum fold_right].
  destruct (Nat.leb_spec 5 n); lia.
Qed.

(** X6.  [countCompetenceViolations] never raises, and its count is at
    most 10 for every worker after the fifth of the dictionary: a
    dictionary of five workers or fewer counts 0. *)
Theorem countCompetenceViolations_bounded :
  forall d : workersShifts,
    exists count,
      countCompetenceViolations d = Ok count
      /\ (0 <= count <= 10 * Z.of_nat (length d - 5))%Z.
Proof.
  intro d; exists (competence_total d).
  split; [apply countCompetenceViolations_total | split].
  - apply competence_total_nonneg.
  - unfold competence_total, Py.enumerate.
    transitivity
      (Zsum (map (fun iw : nat * list Z =>
                    if 5 <=? fst iw then 10%Z else 0%Z)
                 (combine (seq 0 (length (Py.values d))) (Py.values d)))).
    + apply Zsum_map_le; intros [i ws] _.
      unfold competence_of; cbn [fst snd].
      pose proof (night_count_le ws).
      destruct (5 <=? i); lia.
    + rewrite <- (map_map fst (fun i => if 5 <=? i then 10%Z else 0%Z)).
      rewrite fst_combine_seq, Zsum_competence_cap.
      unfold Py.values; rewrite length_map; lia.
Qed.

(** ** Entries other than 0 and 1 *)

Lemma nth_scheduled_only (ws : list Z) (k : nat) :
  (nth k (scheduled_only ws) 0 =? 1)%Z = (nth k ws 0 =? 1)%Z.
Proof.
  revert k; induction ws as [|x ws IH]; intros [|k]; simpl;
    try reflexivity; [| apply IH].
  destruct (x =? 1)%Z; reflexivity.
Qed.

Lemma adjacent_pairs_scheduled_only (ws : list Z) :
  adjacent_pairs (scheduled_only ws) = adjacent_pairs ws.
Proof.
  unfold adjacent_pairs, scheduled_only at 2; rewrite length_map.
  apply filter_ext_length; intros k _; unfold both_scheduled.
  rewrite !nth_scheduled_only; reflexivity.
Qed.

Lemma scheduled_at_scheduled_only (ws : list Z) (k : nat) :
  scheduled_at (scheduled_only ws) k = scheduled_at ws k.
Proof.
  unfold scheduled_at, scheduled_only; rewrite nth_error_map.
  destruct (nth_error ws k) as [x|]; simpl; [|reflexivity].
  destruct (x =? 1)%Z; reflexivity.
Qed.

Lemma values_scheduled_only (d : workersShifts) :
  Py.values (scheduled_only_dict d) = map scheduled_only (Py.values d).
Proof.
  unfold Py.values, scheduled_only_dict; rewrite !map_map; reflexivity.
Qed.

Lemma lookup_scheduled_only (d : workersShifts) (w : string) :
  Py.lookup (scheduled_only_dict d) w
  = (ws <- Py.lookup d w ;; Ok (scheduled_only ws)).
Proof.
  induction d as [|[k v] d IH]; simpl; [reflexivity|].
  destruct (String.eqb k w); [reflexivity | exact IH].
Qed.

Lemma foldM_ext {S A : Type} (f g : S -> A -> result S) (l : list A) (s : S) :
  (forall s x, f s x = g s x) -> foldM f l s = foldM g l s.
Proof.
  intro H; revert s; induction l as [|x l IH]; intro s; simpl;
    [reflexivity|].
  rewrite H; destruct (g s x); simpl; [apply IH | reflexivity].
Qed.

(** X7.  An entry counts as a shift for the consecutive, preference and
    competence counters only when it equals 1: replacing every other entry
    of the dictionary by 0 changes none of the three results. *)
Theorem counters_read_only_ones :
  forall (self : SchedulingProblem) (d : workersShifts),
    countConsecutiveShiftViolations (scheduled_only_dict d)
    = countConsecutiveShiftViolations d
    /\ countCompetenceViolations (scheduled_only_dict d)
       = countCompetenceViolations d
    /\ countShiftPreferenceViolations self (scheduled_only_dict d)
       = countShiftPreferenceViolations self d.
Proof.
  intros self d; split; [|split].
  - unfold countConsecutiveShiftViolations.
    rewrite !consecutive_workers, values_scheduled_only, map_map.
    do 2 f_equal; apply map_ext; intro ws.
    rewrite adjacent_pairs_scheduled_only; reflexivity.
  - rewrite !countCompetenceViolations_total; f_equal.
    unfold competence_total, Py.enumerate.
    rewrite values_scheduled_only, length_map.
    generalize (seq 0 (length (Py.values d))); intro idx.
    generalize (Py.values d); intro vals; revert idx.
    induction vals as [|ws vals IH]; intros [|i idx]; simpl;
      try reflexivity.
    rewrite IH; f_equal.
    unfold competence_of, night_count.
    rewrite (filter_ext (scheduled_at (scheduled_only ws)) (scheduled_at ws))
      by (intro k; apply scheduled_at_scheduled_only).
    reflexivity.
  - unfold countShiftPreferenceViolations.
    apply foldM_ext; intros v [i pref].
    destruct (Py.floordiv (shiftsPerWeek self) (shiftPerDay self)) as [days|];
      [|reflexivity].
    cbn [bind]; cbv zeta.
    destruct (Py.getitem (workers self) i) as [w|]; [|reflexivity].
    cbn [bind]; rewrite lookup_scheduled_only.
    destruct (Py.lookup d w) as [ws|]; [|reflexivity].
    cbn [bind]; rewrite !preference_loop; do 2 f_equal.
    unfold Py.zip.
    rewrite !(filter_combine_index (fun a b => (a =? 0)%Z && (b =? 1)%Z)
                (Py.list_mul pref days) _ 0%Z 0%Z).
    unfold scheduled_only at 2; rewrite length_map.
    f_equal; apply filter_ext_length; intros k _.
    rewrite nth_scheduled_only; reflexivity.
Qed.

(** ** Missing workers and ragged dictionaries *)

Lemma lookup_missing {V : Type} (d : Py.dict V) (w : string) :
  ~ In w (Py.keys d) -> Py.lookup d w = Raise (KeyError w).
Proof.
  induction d as [|[k v] d IH]; intro Hw; simpl; [reflexivity|].
  simpl in Hw.
  destruct (String.eqb_spec k w) as [-> | _]; [tauto | apply IH; tauto].
Qed.

Lemma preference_missing (self : SchedulingProblem) (d : workersShifts)
  (w : string) (prefs : list (list Z)) (start i : nat) (violations : Z) :
  shiftPerDay self <> 0 ->
  start <= i < start + length prefs ->
  nth_error (workers self) i = Some w ->
  ~ In w (Py.keys d) ->
  (forall j, start <= j < i ->
             exists w', nth_error (workers self) j = Some w'
                        /\ exists ws, Py.lookup d w' = Ok ws) ->
  foldM
    (fun violations '(workerIndex, shiftPreference) =>
       days <- Py.floordiv (shiftsPerWeek self) (shiftPerDay self) ;;
       let preference := Py.list_mul shiftPreference days in
       worker <- Py.getitem (workers self) workerIndex ;;
       shifts <- Py.lookup d worker ;;
       Ok (fold_left
             (fun violations '(pref, shift) =>
                if (pref =? 0)%Z && (shift =? 1)%Z
                then (violations + 1)%Z else violations)
             (Py.zip preference shifts) violations))
    (combine (seq start (length prefs)) prefs) violations
  = Raise (KeyError w).
Proof.
  intros Hday Hi Hw Hmiss Hbefore.
  name_body body.
  assert (Hraise : forall v pref, body v (i, pref) = Raise (KeyError w)).
  { intros v pref; unfold body, Py.floordiv, Py.getitem.
    destruct (shiftPerDay self) as [|spd] eqn:Hspd; [contradiction|].
    cbn [bind]; cbv zeta; rewrite Hw; cbn [bind].
    rewrite (@lookup_missing _ d w Hmiss); reflexivity. }
  assert (Hok : forall v j pref, start <= j < i ->
                                 exists v', body v (j, pref) = Ok v').
  { intros v j pref Hj.
    destruct (Hbefore j Hj) as (w' & Hw' & ws & Hlook).
    eexists; unfold body.
    apply (@preference_round self d Hday v j pref w' ws Hw' Hlook). }
  clearbody body.
  revert start violations Hi Hbefore Hok.
  induction prefs as [|pref prefs IH]; intros start v Hi Hbefore Hok.
  - simpl in Hi; lia.
  - simpl length in *; simpl seq; simpl combine; rewrite foldM_cons.
    destruct (Nat.eq_dec start i) as [-> | Hne].
    + rewrite Hraise; reflexivity.
    + destruct (Hok v start pref ltac:(lia)) as (v' & Hv').
      rewrite Hv'; cbn [bind].
      apply IH; [lia | intros; apply Hbefore; lia | intros; apply Hok; lia].
Qed.

(** X8.  [countShiftPreferenceViolations] raises the [KeyError] of the
    first worker, in the order of the preference rows, that the dictionary
    has no entry for. *)
Theorem countShiftPreferenceViolations_missing_worker :
  forall (self : SchedulingProblem) (d : workersShifts) (i : nat) (w : string),
    shiftPerDay self <> 0 ->
    i < length (shiftPreference self) ->
    nth_error (workers self) i = Some w ->
    ~ In w (Py.keys d) ->
    (forall j, j < i ->
               exists w', nth_error (workers self) j = Some w'
                          /\ exists ws, Py.lookup d w' = Ok ws) ->
    countShiftPreferenceViolations self d = Raise (KeyError w).
Proof.
  intros self d i w Hday Hi Hw Hmiss Hbefore.
  unfold countShiftPreferenceViolations, Py.enumerate.
  apply preference_missing with (i := i); try assumption; [lia|].
  intros j Hj; apply Hbefore; lia.
Qed.

Lemma countShiftPreferenceViolations_missing_worker_witness :
  countShiftPreferenceViolations (__init__ 10)
    [("A", [0; 1; 0]); ("C", [1; 1; 1])]%Z%string
  = Raise (KeyError "B").
Proof.
  apply countShiftPreferenceViolations_missing_worker with (i := 1).
  - discriminate.
  - simpl; lia.
  - reflexivity.
  - simpl; intros [H | [H | []]]; discriminate.
  - intros j Hj; assert (j = 0) as -> by lia.
    exists "A"%string; split; [reflexivity | eexists; reflexivity].
Defined.

Lemma heads_some (vals : list (list Z)) :
  Forall (fun ws => 1 <= length ws) vals ->
  Py.heads vals = Some (map (fun ws => nth 0 ws 0%Z) vals).
Proof.
  induction 1 as [|ws vals Hws _ IH]; [reflexivity|].
  destruct ws as [|x ws]; [simpl in Hws; lia|].
  simpl; rewrite IH; reflexivity.
Qed.

Lemma heads_none (vals : list (list Z)) :
  Exists (fun ws => length ws = 0) vals -> Py.heads vals = None.
Proof.
  induction 1 as [ws vals Hws | ws vals _ IH].
  - destruct ws; [reflexivity | discriminate].
  - destruct ws as [|x ws]; [reflexivity|].
    simpl; rewrite IH; reflexivity.
Qed.

Lemma zip_rows_ragged (n fuel : nat) (vals : list (list Z)) :
  n <= fuel ->
  Forall (fun ws => n <= length ws) vals ->
  Exists (fun ws => length ws = n) vals ->
  Py.zip_rows fuel vals
  = map (fun j => map (fun ws => nth j ws 0%Z) vals) (seq 0 n).
Proof.
  revert fuel vals; induction n as [|n IH]; intros fuel vals Hfuel Hall Hex.
  - destruct fuel as [|fuel]; [reflexivity|].
    simpl; rewrite (heads_none Hex); reflexivity.
  - destruct fuel as [|fuel]; [lia|].
    simpl Py.zip_rows.
    rewrite heads_some
      by (revert Hall; apply Forall_impl; intros; lia).
    rewrite (IH fuel (map (@tl Z) vals)); [| lia | |].
    + simpl seq; simpl map; rewrite <- seq_shift, map_map.
      f_equal; apply map_ext; intro j.
      rewrite map_map; apply map_ext; intro ws; apply nth_tl.
    + apply Forall_map; revert Hall; apply Forall_impl.
      intros [|x ws]; simpl; lia.
    + apply Exists_exists in Hex; destruct Hex as (ws & Hin & Hws).
      apply Exists_exists; exists (tl ws); split.
      * apply in_map; assumption.
      * destruct ws; simpl in *; lia.
Qed.

(** X9.  With a positive number of shifts per day and a bound of each kind
    for every shift of the day, [countWorkersPerShiftViolations] checks as
    many slots as the shortest sequence of the dictionary has: the list of
    totals has that length, and what the longer sequences have past it is
    not counted.  The empty dictionary gives no slot and no violation. *)
Theorem countWorkersPerShiftViolations_shortest :
  forall (self : SchedulingProblem) (d : workersShifts) (n : nat),
    shiftPerDay self <> 0 ->
    shiftPerDay self <= length (shiftMax self) ->
    shiftPerDay self <= length (shiftMin self) ->
    Forall (fun ws => n <= length ws) (Py.values d) ->
    Exists (fun ws => length ws = n) (Py.values d) ->
    countWorkersPerShiftViolations self d
    = Ok (map (slot_total d) (seq 0 n), staffing_total self d n)
    /\ countWorkersPerShiftViolations self [] = Ok ([], 0%Z).
Proof.
  intros self d n Hday Hmax Hmin Hall Hex; split.
  - rewrite (@countWorkersPerShiftViolations_total self Hday Hmax Hmin d).
    assert (Hzip : Py.zip_star (Py.values d)
                   = map (fun j => map (fun ws => nth j ws 0%Z) (Py.values d))
                         (seq 0 n)).
    { unfold Py.zip_star.
      destruct (Py.values d) as [|ws vals] eqn:Hvals;
        [inversion Hex|].
      apply zip_rows_ragged; [exact (Forall_inv Hall) | assumption..]. }
    rewrite Hzip, map_map.
    assert (Htotals : map (fun j => Py.sum (map (fun ws => nth j ws 0%Z)
                                                (Py.values d))) (seq 0 n)
                      = map (slot_total d) (seq 0 n))
      by (apply map_ext; intro j; apply sum_Zsum).
    rewrite Htotals; unfold Py.enumerate, staffing_total.
    rewrite length_map, length_seq, combine_seq_map, map_map; reflexivity.
  - apply (@countWorkersPerShiftViolations_total self Hday Hmax Hmin []).
Qed.

Lemma countWorkersPerShiftViolations_shortest_witness :
  countWorkersPerShiftViolations (__init__ 10)
    [("A", [1; 1; 1; 1; 1]); ("B", [1; 0]); ("C", [1; 1; 1])]%Z%string
  = Ok ([3; 2]%Z, 0%Z)
  /\ countWorkersPerShiftViolations (__init__ 10) [] = Ok ([], 0%Z).
Proof.
  refine (@countWorkersPerShiftViolations_shortest (__init__ 10)
            [("A", [1; 1; 1; 1; 1]); ("B", [1; 0]);
             ("C", [1; 1; 1])]%Z%string 2 _ _ _ _ _).
  - discriminate.
  - simpl; lia.
  - simpl; lia.
  - repeat constructor; simpl; lia.
  - apply Exists_cons_tl, Exists_cons_hd; reflexivity.
Defined.

(** ** The two lists of totals *)

Lemma Zsum_concat (ls : list (list Z)) :
  Zsum (concat ls) = Zsum (map Zsum ls).
Proof.
  induction ls as [|l ls IH]; simpl; [reflexivity|].
  rewrite Zsum_app, IH; reflexivity.
Qed.

Lemma Zsum_map_add {A : Type} (a b : A -> Z) (l : list A) :
  Zsum (map (fun x => a x + b x)%Z l) = (Zsum (map a l) + Zsum (map b l))%Z.
Proof.
  induction l as [|x l IH]; simpl; [reflexivity | rewrite IH; lia].
Qed.

Lemma Zsum_exchange {A B : Type} (f : A -> B -> Z) (xs : list A)
  (ys : list B) :
  Zsum (map (fun x => Zsum (map (f x) ys)) xs)
  = Zsum (map (fun y => Zsum (map (fun x => f x y) xs)) ys).
Proof.
  induction ys as [|y ys IH]; simpl.
  - apply Zsum_zeros.
  - rewrite <- IH, <- Zsum_map_add; reflexivity.
Qed.

Lemma week_total_chunk (self : SchedulingProblem) (ws : list Z) (w : nat) :
  week_total self ws w = Zsum (chunk ws (shiftsPerWeek self) w).
Proof.
  unfold week_total, chunk.
  rewrite <- sum_slice; apply sum_Zsum.
Qed.

Lemma weeks_cover_row (self : SchedulingProblem) (ws : list Z) :
  length ws <= weeks self * shiftsPerWeek self ->
  Zsum (map (week_total self ws) (seq 0 (weeks self))) = Zsum ws.
Proof.
  intro Hlen.
  rewrite (map_ext (week_total self ws)
             (fun w => Zsum (chunk ws (shiftsPerWeek self) w)))
    by (intro w; apply week_total_chunk).
  rewrite <- (map_map (chunk ws (shiftsPerWeek self)) Zsum).
  rewrite <- Zsum_concat, concat_chunks, firstn_all2 by assumption.
  reflexivity.
Qed.

Lemma size_per_worker (self : SchedulingProblem) :
  workers self <> [] ->
  __len__ self / length (workers self) = weeks self * shiftsPerWeek self.
Proof.
  intro Hne; unfold __len__.
  assert (Hm : length (workers self) <> 0)
    by (destruct (workers self); [contradiction | discriminate]).
  replace (length (workers self) * shiftsPerWeek self * weeks self)
    with (weeks self * shiftsPerWeek self * length (workers self)) by lia.
  apply Nat.div_mul; assumption.
Qed.

Lemma rows_sum (self : SchedulingProblem) (sched : schedule) :
  workers self <> [] ->
  length sched = __len__ self ->
  Zsum (map Zsum (Py.values (partition self sched))) = Zsum sched.
Proof.
  intros Hne Hlen.
  rewrite <- Zsum_concat, partition_values, concat_chunks,
    (@len_per_worker self Hne), <- Hlen, firstn_all.
  reflexivity.
Qed.

(** X10.  On a well-configured instance and a schedule of [__len__]
    entries, the list of weekly totals and the list of totals per slot that
    the two counters return both add up to the sum of the schedule: every
    entry is counted once in each. *)
Theorem totals_add_up_to_schedule :
  forall (self : SchedulingProblem) (sched : schedule),
    well_configured self ->
    length sched = __len__ self ->
    exists weekly perWeek slots perShift,
      countShiftsPerWeekViolations self (partition self sched)
      = Ok (weekly, perWeek)
      /\ countWorkersPerShiftViolations self (partition self sched)
         = Ok (slots, perShift)
      /\ Py.sum weekly = Py.sum sched
      /\ Py.sum slots = Py.sum sched.
Proof.
  intros self sched Hwc Hlen.
  destruct (@getCost_steps self sched Hwc Hlen)
    as (_ & Hweek & Hslots & _).
  pose proof (@partition_rows self sched (wc_workers Hwc) Hlen) as Hrows.
  pose proof (@rows_sum self sched (wc_workers Hwc) Hlen) as Hsum.
  do 4 eexists; split; [exact Hweek | split; [exact Hslots | split]];
    rewrite !sum_Zsum, <- Hsum.
  - unfold weekly_totals; rewrite flat_map_concat_map, Zsum_concat, map_map.
    f_equal; apply map_ext_in; intros ws Hin.
    apply weeks_cover_row.
    rewrite (proj1 (Forall_forall _ _) Hrows ws Hin),
      (@size_per_worker self (wc_workers Hwc)); lia.
  - unfold slot_total.
    rewrite (Zsum_exchange (fun j ws => nth j ws 0%Z)).
    f_equal; apply map_ext_in; intros ws Hin.
    rewrite <- Zsum_firstn, firstn_all2; [reflexivity|].
    rewrite (proj1 (Forall_forall _ _) Hrows ws Hin); lia.
Qed.

Lemma totals_add_up_to_schedule_witness :
  exists weekly perWeek slots perShift,
    countShiftsPerWeekViolations (__init__ 10)
      (partition (__init__ 10) (Py.list_mul [1; 0]%Z 105))
    = Ok (weekly, perWeek)
    /\ countWorkersPerShiftViolations (__init__ 10)
         (partition (__init__ 10) (Py.list_mul [1; 0]%Z 105))
       = Ok (slots, perShift)
    /\ Py.sum weekly = Py.sum (Py.list_mul [1; 0]%Z 105)
    /\ Py.sum slots = Py.sum (Py.list_mul [1; 0]%Z 105).
Proof.
  apply totals_add_up_to_schedule;
    [apply init_well_configured | reflexivity].
Defined.

(** ** Instances with another list of workers *)

(** X11.  On an instance without workers [__len__] is 0, so only the
    empty schedule passes the length check of [getCost]; computing the
    size of a worker's slice then divides by zero: [getWorkerShifts] raises
    [ZeroDivisionError] on every schedule, [printScheduleInfo] raises it
    before it prints anything, and [getCost] raises it on the empty
    schedule. *)
Theorem no_workers_division_by_zero :
  forall (self : SchedulingProblem) (sched : schedule),
    workers self = [] ->
    __len__ self = 0
    /\ getWorkerShifts self sched = Raise ZeroDivisionError
    /\ printScheduleInfo self sched = ([], Raise ZeroDivisionError)
    /\ getCost self [] = Raise ZeroDivisionError.
Proof.
  intros self sched Hw.
  assert (Hlen : __len__ self = 0) by (unfold __len__; rewrite Hw; reflexivity).
  assert (Hd : forall s, getWorkerShifts self s = Raise ZeroDivisionError)
    by (intro s; unfold getWorkerShifts; rewrite Hw; reflexivity).
  split; [exact Hlen | split; [apply Hd | split]].
  - unfold printScheduleInfo; rewrite Hd; reflexivity.
  - unfold getCost; rewrite Hlen, Hd; reflexivity.
Qed.

Lemma no_workers_division_by_zero_witness :
  __len__ (with_workers (__init__ 10) []) = 0
  /\ getWorkerShifts (with_workers (__init__ 10) []) [1; 0; 1]%Z
     = Raise ZeroDivisionError
  /\ printScheduleInfo (with_workers (__init__ 10) []) [1; 0; 1]%Z
     = ([], Raise ZeroDivisionError)
  /\ getCost (with_workers (__init__ 10) []) [] = Raise ZeroDivisionError.
Proof.
  apply no_workers_division_by_zero; reflexivity.
Defined.

Lemma lookup_setitem_same {V : Type} (d : Py.dict V) (k : string) (v : V) :
  Py.lookup (Py.setitem d k v) k = Ok v.
Proof.
  induction d as [|[k' v'] d IH]; simpl.
  - rewrite String.eqb_refl; reflexivity.
  - destruct (String.eqb k' k) eqn:Hk; simpl; rewrite Hk;
      [reflexivity | exact IH].
Qed.

Lemma lookup_setitem_other {V : Type} (d : Py.dict V) (k w : string) (v : V) :
  k <> w -> Py.lookup (Py.setitem d k v) w = Py.lookup d w.
Proof.
  intro Hkw; induction d as [|[k' v'] d IH]; simpl.
  - destruct (String.eqb_spec k w); [contradiction | reflexivity].
  - destruct (String.eqb_spec k' k) as [-> | Hk']; simpl.
    + destruct (String.eqb_spec k w); [contradiction | reflexivity].
    + destruct (String.eqb k' w); [reflexivity | exact IH].
Qed.

Lemma decompose_keeps (sched : schedule) (size : nat) (names : list string)
  (d : workersShifts) (shiftIndex : nat) (w : string) :
  ~ In w names ->
  Py.lookup
    (fst (fold_left
            (fun '(workersShiftsDict, shiftIndex) worker =>
               (Py.setitem workersShiftsDict worker
                  (Py.slice sched shiftIndex (shiftIndex + size)),
                (shiftIndex + size)%nat))
            names (d, shiftIndex))) w
  = Py.lookup d w.
Proof.
  name_body body.
  revert d shiftIndex; induction names as [|a names IH]; intros d idx Hw.
  - reflexivity.
  - rewrite fold_left_cons; unfold body at 2.
    rewrite IH by (intro Hin; apply Hw; simpl; auto).
    apply lookup_setitem_other; intro Heq; apply Hw; simpl; auto.
Qed.

Lemma decompose_last (sched : schedule) (size : nat) (names : list string)
  (d : workersShifts) (shiftIndex i : nat) (w : string) :
  nth_error names i = Some w ->
  (forall j, i < j -> nth_error names j <> Some w) ->
  Py.lookup
    (fst (fold_left
            (fun '(workersShiftsDict, shiftIndex) worker =>
               (Py.setitem workersShiftsDict worker
                  (Py.slice sched shiftIndex (shiftIndex + size)),
                (shiftIndex + size)%nat))
            names (d, shiftIndex))) w
  = Ok (Py.slice sched (shiftIndex + i * size)
                 (shiftIndex + i * size + size)).
Proof.
  revert d shiftIndex i; induction names as [|a names IH];
    intros d idx i Hi Hlast.
  - destruct i; discriminate.
  - rewrite fold_left_cons.
    destruct i as [|i]; simpl in Hi.
    + injection Hi as ->.
      rewrite decompose_keeps.
      * rewrite lookup_setitem_same, Nat.add_0_r; reflexivity.
      * intro Hin; apply In_nth_error in Hin; destruct Hin as (j & Hj).
        apply (Hlast (S j)); [lia | exact Hj].
    + rewrite (IH _ _ i Hi) by (intros j Hj; apply (Hlast (S j)); lia).
      f_equal; f_equal; lia.
Qed.

(** X12.  When a name occurs more than once in the list of workers, the
    dictionary that [getWorkerShifts] returns holds under that name the
    slice of the last occurrence: the slices of the earlier occurrences
    are overwritten. *)
Theorem getWorkerShifts_last_occurrence :
  forall (self : SchedulingProblem) (sched : schedule) (i : nat) (w : string),
    nth_error (workers self) i = Some w ->
    (forall j, i < j -> nth_error (workers self) j <> Some w) ->
    exists d,
      getWorkerShifts self sched = Ok d
      /\ Py.lookup d w
         = Ok (chunk sched (__len__ self / length (workers self)) i).
Proof.
  intros self sched i w Hi Hlast.
  unfold getWorkerShifts, Py.floordiv.
  destruct (length (workers self)) as [|m] eqn:Hm.
  - destruct (workers self); [destruct i; discriminate | discriminate].
  - rewrite <- Hm; cbn [bind]; eexists; split; [reflexivity|].
    rewrite (@decompose_last sched _ (workers self) [] 0 i w Hi Hlast).
    reflexivity.
Qed.

Lemma getWorkerShifts_last_occurrence_witness :
  exists d,
    getWorkerShifts (with_workers (__init__ 10) ["A"; "B"; "A"]%string)
      (Py.list_mul [1; 0; 0]%Z 21) = Ok d
    /\ Py.lookup d "A"%string
       = Ok (chunk (Py.list_mul [1; 0; 0]%Z 21)
               (__len__ (with_workers (__init__ 10) ["A"; "B"; "A"]%string)
                / length (workers (with_workers (__init__ 10)
                                     ["A"; "B"; "A"]%string)))
               2).
Proof.
  apply getWorkerShifts_last_occurrence; [reflexivity|].
  intros j Hj; do 3 (destruct j as [|j]; [lia|]).
  destruct j; discriminate.
Defined.

(** ** Reading a cost *)

(** X13.  On a well-configured instance with a positive penalty and a
    schedule of [__len__] entries, the cost is 0 exactly when each of the
    five counts is 0. *)
Theorem zero_cost_iff_no_violation :
  forall (self : SchedulingProblem) (sched : schedule),
    well_configured self ->
    length sched = __len__ self ->
    (0 < hardConstraintPenalty self)%Z ->
    exists d weekly perWeek slots perShift pref comp,
      getWorkerShifts self sched = Ok d
      /\ countShiftsPerWeekViolations self d = Ok (weekly, perWeek)
      /\ countWorkersPerShiftViolations self d = Ok (slots, perShift)
      /\ countShiftPreferenceViolations self d = Ok pref
      /\ countCompetenceViolations d = Ok comp
      /\ (getCost self sched = Ok 0%Z
          <-> countConsecutiveShiftViolations d = 0%Z
              /\ perWeek = 0%Z /\ perShift = 0%Z
              /\ pref = 0%Z /\ comp = 0%Z).
Proof.
  intros self sched Hwc Hlen Hp.
  destruct (@getCost_steps self sched Hwc Hlen)
    as (Hd & Hweek & Hslots & Hpref & Hcomp & Hcost).
  pose proof (countConsecutiveShiftViolations_nonneg (partition self sched)).
  pose proof (weekly_excess_nonneg self (partition self sched)).
  pose proof (staffing_total_nonneg self (partition self sched)
                (__len__ self / length (workers self))).
  pose proof (preference_total_nonneg self (partition self sched)).
  pose proof (competence_total_nonneg (partition self sched)).
  exists (partition self sched).
  do 6 eexists.
  repeat (split; [eassumption|]).
  rewrite Hcost; split.
  - intro Hzero; injection Hzero as Hzero.
    assert (0 <= hardConstraintPenalty self
                 * (countConsecutiveShiftViolations (partition self sched)
                    + staffing_total self (partition self sched)
                        (__len__ self / length (workers self))
                    + weekly_excess self (partition self sched)
                    + competence_total (partition self sched)))%Z by nia.
    assert (countConsecutiveShiftViolations (partition self sched)
            + staffing_total self (partition self sched)
                (__len__ self / length (workers self))
            + weekly_excess self (partition self sched)
            + competence_total (partition self sched) = 0)%Z by nia.
    lia.
  - intros (-> & -> & -> & -> & ->); f_equal; lia.
Qed.

Lemma zero_cost_iff_no_violation_witness :
  exists d weekly perWeek slots perShift pref comp,
    getWorkerShifts (__init__ 10) all_zero = Ok d
    /\ countShiftsPerWeekViolations (__init__ 10) d = Ok (weekly, perWeek)
    /\ countWorkersPerShiftViolations (__init__ 10) d = Ok (slots, perShift)
    /\ countShiftPreferenceViolations (__init__ 10) d = Ok pref
    /\ countCompetenceViolations d = Ok comp
    /\ (getCost (__init__ 10) all_zero = Ok 0%Z
        <-> countConsecutiveShiftViolations d = 0%Z
            /\ perWeek = 0%Z /\ perShift = 0%Z
            /\ pref = 0%Z /\ comp = 0%Z).
Proof.
  apply zero_cost_iff_no_violation;
    [apply init_well_configured | reflexivity | simpl; lia].
Defined.

(** X14.  With the instance of [__init__], a binary schedule of 210
    entries has at most 98 preference violations; so under a penalty above
    98 the schedules that cost less than the penalty are exactly those
    with no hard violation. *)
Theorem cost_below_penalty_iff_no_hard_violation :
  forall (penalty : Z) (sched : schedule),
    (98 < penalty)%Z ->
    length sched = 210 ->
    binary sched ->
    exists d weekly perWeek slots perShift pref comp cost,
      getWorkerShifts (__init__ penalty) sched = Ok d
      /\ countShiftsPerWeekViolations (__init__ penalty) d
         = Ok (weekly, perWeek)
      /\ countWorkersPerShiftViolations (__init__ penalty) d
         = Ok (slots, perShift)
      /\ countShiftPreferenceViolations (__init__ penalty) d = Ok pref
      /\ countCompetenceViolations d = Ok comp
      /\ getCost (__init__ penalty) sched = Ok cost
      /\ (0 <= pref <= 98)%Z
      /\ ((cost < penalty)%Z
          <-> countConsecutiveShiftViolations d = 0%Z
              /\ perWeek = 0%Z /\ perShift = 0%Z /\ comp = 0%Z).
Proof.
  intros penalty sched Hp Hlen Hbin.
  destruct (@getCost_steps (__init__ penalty) sched
              (init_well_configured penalty) Hlen)
    as (Hd & Hweek & Hslots & Hpref & Hcomp & Hcost).
  pose proof (countConsecutiveShiftViolations_nonneg
                (partition (__init__ penalty) sched)).
  pose proof (weekly_excess_nonneg (__init__ penalty)
                (partition (__init__ penalty) sched)).
  pose proof (staffing_total_nonneg (__init__ penalty)
                (partition (__init__ penalty) sched)
                (__len__ (__init__ penalty)
                 / length (workers (__init__ penalty)))).
  pose proof (preference_total_nonneg (__init__ penalty)
                (partition (__init__ penalty) sched)).
  pose proof (competence_total_nonneg (partition (__init__ penalty) sched)).
  pose proof (@roster_preference_le penalty sched Hlen).
  exists (partition (__init__ penalty) sched).
  do 7 eexists.
  repeat (split; [eassumption|]).
  split; [lia|].
  change (hardConstraintPenalty (__init__ penalty)) with penalty.
  split.
  - intro Hlt.
    assert (countConsecutiveShiftViolations
              (partition (__init__ penalty) sched)
            + staffing_total (__init__ penalty)
                (partition (__init__ penalty) sched)
                (__len__ (__init__ penalty)
                 / length (workers (__init__ penalty)))
            + weekly_excess (__init__ penalty)
                (partition (__init__ penalty) sched)
            + competence_total (partition (__init__ penalty) sched) = 0)%Z
      by nia.
    lia.
  - intros (-> & -> & -> & ->); lia.
Qed.

Lemma cost_below_penalty_iff_no_hard_violation_witness :
  exists d weekly perWeek slots perShift pref comp cost,
    getWorkerShifts (__init__ 100) (Py.list_mul [1; 0]%Z 105) = Ok d
    /\ countShiftsPerWeekViolations (__init__ 100) d = Ok (weekly, perWeek)
    /\ countWorkersPerShiftViolations (__init__ 100) d = Ok (slots, perShift)
    /\ countShiftPreferenceViolations (__init__ 100) d = Ok pref
    /\ countCompetenceViolations d = Ok comp
    /\ getCost (__init__ 100) (Py.list_mul [1; 0]%Z 105) = Ok cost
    /\ (0 <= pref <= 98)%Z
    /\ ((cost < 100)%Z
        <-> countConsecutiveShiftViolations d = 0%Z
            /\ perWeek = 0%Z /\ perShift = 0%Z /\ comp = 0%Z).
Proof.
  apply cost_below_penalty_iff_no_hard_violation;
    [lia | reflexivity | exact binary_alternating].
Defined.
